(** * NF-kB luciferase reporter assay: the two converted protocols

    A shallow embedding of [ot2plr.py] (raw aspirate/dispense calls) and of
    the high-level variant ([NF-kB Luciferase Reporter Assay.py]).

    Conventions of the embedding:
    - Python exceptions are values of [exception]; a raised exception
      carries its traceback, the list of function frames it crossed,
      outermost first.
    - Every call on the liquid handler or on the backend is recorded, in
      issue order, in the [emitted] field of the machine state; the calls
      themselves are taken to return normally.
    - Decimal literals ([1.2], [0.75], ...) are read as exact rationals.
    - Objects with identity (tip racks) carry an object id. *)

From Stdlib Require Import String ZArith QArith Bool Arith Lia List Finite Sorted.
Import ListNotations.
Open Scope string_scope.
Open Scope list_scope.

Set Implicit Arguments.
Set Warnings "-register-all".

(** ** Exceptions and results *)

Inductive exception : Type :=
| NameError (name : string)
| UnboundLocalError (name : string)   (* a subclass of NameError *)
| RuntimeError (msg : string)
| IndexError
| TypeError
| StopIteration.

(** [isinstance(e, NameError)]. *)
Definition is_NameError (e : exception) : bool :=
  match e with
  | NameError _ | UnboundLocalError _ => true
  | _ => false
  end.

Inductive result (A : Type) : Type :=
| Ok (a : A)
| Raise (e : exception) (tb : list string).

Arguments Ok {A} a.
Arguments Raise {A} e tb.

(** ** Labware *)

(** A tip rack is an object: [rack_id] is its identity. *)
Record TipRack : Type := mkTipRack {
  rack_id   : nat;
  rack_size : nat
}.

(** A tip spot is a position of a rack object. *)
Record tip : Type := mkTip { tip_rack : nat; tip_pos : nat }.

Definition tip_eq_dec (a b : tip) : {a = b} + {a <> b}.
Proof. decide equality; apply Nat.eq_dec. Defined.

(** Modelled from the spec: iterating a tip rack (library code, absent from
    the sources) visits its fixed-size collection of tip positions in
    within-rack position order. *)
Definition rack_iter (r : TipRack) : list tip :=
  map (mkTip (rack_id r)) (seq 0 (rack_size r)).

(** A well of a plate or a channel of a reservoir: (labware, row, column). *)
Record well : Type := mkWell { w_labware : nat; w_row : nat; w_col : nat }.

(** A plate or a reservoir is an object too: [lw_id] is its identity. *)
Record Labware : Type := mkLabware {
  lw_id   : nat;
  lw_rows : nat;
  lw_cols : nat
}.

(** Modelled from the spec: [rows()] of a plate (library code, absent from
    the sources) lists the rows, each row holding its wells in column
    order. *)
Definition rows (p : Labware) : list (list well) :=
  map (fun r => map (mkWell (lw_id p) r) (seq 0 (lw_cols p)))
      (seq 0 (lw_rows p)).

(** Modelled from the spec: [wells()] of a reservoir (library code, absent
    from the sources) lists its channels by channel index. *)
Definition wells (p : Labware) : list well :=
  concat (rows p).

(** ** The tip generator: [_tip_gen] *)

(** The state of the generator object.  [Suspended cur rest]: the inner
    loop still has [cur] to yield from the current rack and the outer loop
    has the racks [rest] ahead; a generator that was not started yet is
    [Suspended [] tip_racks].  [Finished]: the body was left (here, by the
    [raise]).  [Blocked cur rest]: as [Suspended cur rest], over a list
    that holds, after the racks [rest], an entry that is no tip rack and
    cannot be iterated ([None]): the outer loop raises [TypeError] when it
    gets there. *)
Inductive generator : Type :=
| Suspended (cur : list tip) (rest : list TipRack)
| Finished
| Blocked (cur : list tip) (rest : list TipRack).

Definition _tip_gen (tip_racks : list TipRack) : generator :=
  Suspended [] tip_racks.

(** The outer loop looking for the next rack that still yields a tip. *)
Fixpoint next_rack (rest : list TipRack) : option (tip * list tip * list TipRack) :=
  match rest with
  | [] => None
  | rack :: rest' =>
      match rack_iter rack with
      | [] => next_rack rest'
      | t :: cur => Some (t, cur, rest')
      end
  end.

(** [next(g)]: resume the generator up to its next [yield], or up to
    [raise RuntimeError("Out of tips!")]; a finished generator raises
    [StopIteration]. *)
Definition next (g : generator) : result tip * generator :=
  match g with
  | Finished => (Raise StopIteration [], Finished)
  | Suspended (t :: cur) rest => (Ok t, Suspended cur rest)
  | Suspended [] rest =>
      match next_rack rest with
      | Some (t, cur, rest') => (Ok t, Suspended cur rest')
      | None => (Raise (RuntimeError "Out of tips!") ["_tip_gen"], Finished)
      end
  | Blocked (t :: cur) rest => (Ok t, Blocked cur rest)
  | Blocked [] rest =>
      match next_rack rest with
      | Some (t, cur, rest') => (Ok t, Blocked cur rest')
      | None => (Raise TypeError ["_tip_gen"], Finished)
      end
  end.

(** [n] successive [next] calls: the results, in call order, and the
    generator left behind.  A caller that keeps calling after an exception
    is modelled too (the generator is then [Finished]). *)
Fixpoint next_n (n : nat) (g : generator) : list (result tip) * generator :=
  match n with
  | O => ([], g)
  | S n' =>
      let (r, g') := next g in
      let (rs, g'') := next_n n' g' in
      (r :: rs, g'')
  end.

(** Every tip position of an inventory, rack after rack. *)
Definition all_tips (tip_racks : list TipRack) : list tip :=
  concat (map rack_iter tip_racks).

(** What a generator still has to yield. *)
Definition remaining (g : generator) : list tip :=
  match g with
  | Suspended cur rest | Blocked cur rest => cur ++ all_tips rest
  | Finished => []
  end.

(** Suspended over a list of tip racks only. *)
Definition is_live (g : generator) : bool :=
  match g with Suspended _ _ => true | _ => false end.

(** ** Values, machine state and the exception monad *)

Record Coordinate : Type := mkCoordinate { coord_x : Q; coord_y : Q; coord_z : Q }.

(** The dynamically typed values the deck code passes around. *)
Inductive value : Type :=
| VNone
| VInt (n : Z)
| VNum (q : Q)
| VStr (s : string)
| VCoord (c : Coordinate)
| VWell (w : well)
| VRack (r : TipRack)
| VLabware (l : Labware)
| VObj (cls : string)
| VList (l : list value).

Inductive duration : Type :=
| seconds (n : Q)
| minutes (n : Q).

(** The calls issued on the liquid handler [lh] and on the backend. *)
Inductive primitive : Type :=
| setup
| pick_up_tips (t : tip)
| aspirate (src : well) (vol flow_rate : Q) (offset : option Coordinate)
| dispense (dst : well) (vol flow_rate : Q) (offset : option Coordinate)
| air_gap (vol : Q)
| mix (w : well) (volume : Q) (repetitions : Z) (flow_rate : Q) (offset : Coordinate)
| drop_tips
| delay (d : duration)
| finish.

(** [emitted]: the calls issued so far, oldest first.  [tips]: the
    generator object bound to the local [tips] of [run].  [fresh]: the next
    unused object id. *)
Record machine : Type := mkMachine {
  emitted : list primitive;
  tips    : generator;
  fresh   : nat
}.

Definition M (A : Type) : Type := machine -> result A * machine.

Definition ret {A} (a : A) : M A := fun m => (Ok a, m).

Definition bind {A B} (c : M A) (k : A -> M B) : M B :=
  fun m =>
    match c m with
    | (Ok a, m') => k a m'
    | (Raise e tb, m') => (Raise e tb, m')
    end.

Notation "x <- c ;; k" := (bind c (fun x => k))
  (at level 61, c at next level, right associativity).
Notation "c ;; k" := (bind c (fun _ => k))
  (at level 61, right associativity).

Definition raise {A} (e : exception) : M A := fun m => (Raise e [], m).

(** A function call: an exception leaving the callee gets the callee's
    frame added to its traceback. *)
Definition in_frame {A} (f : string) (c : M A) : M A :=
  fun m =>
    match c m with
    | (Ok a, m') => (Ok a, m')
    | (Raise e tb, m') => (Raise e (f :: tb), m')
    end.

Definition emit (p : primitive) : M unit :=
  fun m => (Ok tt, mkMachine (emitted m ++ [p]) (tips m) (fresh m)).

Definition new_id : M nat :=
  fun m => (Ok (fresh m), mkMachine (emitted m) (tips m) (S (fresh m))).

(** [tips = g]. *)
Definition set_tips (g : generator) : M unit :=
  fun m => (Ok tt, mkMachine (emitted m) g (fresh m)).

(** [next(tips)]. *)
Definition next_tips : M tip :=
  fun m => let (r, g) := next (tips m) in (r, mkMachine (emitted m) g (fresh m)).

Fixpoint for_each {A} (l : list A) (body : A -> M unit) : M unit :=
  match l with
  | [] => ret tt
  | a :: l' => body a ;; for_each l' body
  end.

(** A list comprehension [[f(a) for a in l]]. *)
Fixpoint comprehension {A B} (f : A -> M B) (l : list A) : M (list B) :=
  match l with
  | [] => ret []
  | a :: l' => b <- f a ;; bs <- comprehension f l' ;; ret (b :: bs)
  end.

(** [l[i]] for a literal index [i >= 0]. *)
Definition index {A} (l : list A) (i : nat) : M A :=
  match nth_error l i with
  | Some a => ret a
  | None => raise IndexError
  end.

(** [l[:k]]: a slice never raises; a negative [k] counts from the end. *)
Definition slice_upto {A} (l : list A) (k : Z) : list A :=
  if (k <? 0)%Z
  then firstn (Z.to_nat (Z.of_nat (length l) + k)) l
  else firstn (Z.to_nat k) l.

(** Name resolution.  A global is looked up in the module's namespace; a
    local of a function in the bindings its frame holds so far. *)
Definition load_global (globals : list string) (name : string) : M unit :=
  if existsb (String.eqb name) globals then ret tt else raise (NameError name).

Fixpoint lookup (frame : list (string * value)) (name : string) : option value :=
  match frame with
  | [] => None
  | (n, v) :: frame' => if String.eqb name n then Some v else lookup frame' name
  end.

Definition load_fast (frame : list (string * value)) (name : string) : M value :=
  match lookup frame name with
  | Some v => ret v
  | None => raise (UnboundLocalError name)
  end.

Definition initial : machine := mkMachine [] Finished 0.

(** ** Library calls the sources rely on *)

(** [slot=n] or [location=loc]. *)
Inductive placement : Type :=
| slot (n : Z)
| location (loc : value).

(** Methods of the deck and of [DPLiquidHandler], defined outside the two
    protocol files: they are parameters of the development.  Keyword
    arguments are passed as an association list. *)
Class Library : Type := {
  assign_child_resource : value -> placement -> M value;
  get_slot : Z -> M value;
  remove_liquid : list (string * value) -> M unit;
  add_liquid : list (string * value) -> M unit
}.

(** Modelled from the spec: the labware constructors (library code, absent
    from the sources) create a new labware object of a fixed size: a tip
    rack of 96 tips, a 96-well plate of 8 rows by 12 columns, a reservoir
    of 12 channels and a reservoir of a single channel. *)
Definition opentrons_96_tiprack_300ul (name : value) : M TipRack :=
  i <- new_id ;; ret (mkTipRack i 96).

Definition corning_96_wellplate_360ul_flat (name : value) : M Labware :=
  i <- new_id ;; ret (mkLabware i 8 12).

Definition nest_12_reservoir_15ml (name : value) : M Labware :=
  i <- new_id ;; ret (mkLabware i 1 12).

Definition nest_1_reservoir_195ml (name : value) : M Labware :=
  i <- new_id ;; ret (mkLabware i 1 1).

(** ** User-configurable constants *)

Definition MEDIUM_VOL : Q := 100.
Definition PBS_VOL    : Q := 50.
Definition LYSIS_VOL  : Q := 30.
Definition LUC_VOL    : Q := 100.
Definition TOTAL_COL  : Z := 12.

(** ** Deck construction: [_build_deck] (the same text in both files) *)

(** The dictionary [_build_deck] returns. *)
Record Deck : Type := mkDeck {
  tip_racks     : list value;
  working_plate : Labware;
  reagent_res   : Labware;
  waste_res     : Labware
}.

Definition tiprack_slots : list Z := [8; 11; 1; 4]%Z.

Section BuildDeck.
Context {L : Library}.

(** Lines 28-31, from the value of the [name] argument on: one rack is
    constructed, then assigned once per slot. *)
Definition build_tipracks (name : value) : M (list value) :=
  tiprack_i <- opentrons_96_tiprack_300ul name ;;
  comprehension
    (fun slot_i => assign_child_resource (VRack tiprack_i) (slot slot_i))
    tiprack_slots.

(** [tiprack], [reagent_stock] and [waste_res] are assigned in the body,
    so they are locals of the function; each frame below lists the
    locals bound when the name is read. *)
Definition _build_deck (lh : value) : M Deck :=
  in_frame "_build_deck" (
    let frame0 := [("lh", lh);
                   ("tiprack_slots", VList (map VInt tiprack_slots))] in
    name <- load_fast frame0 "tiprack" ;;
    tiprack <- build_tipracks name ;;
    let frame1 := ("tiprack", VList tiprack) :: frame0 in
    working_plate <- corning_96_wellplate_360ul_flat (VStr "working_plate") ;;
    assign_child_resource (VLabware working_plate) (slot 6) ;;
    let frame2 := ("working_plate", VLabware working_plate) :: frame1 in
    name <- load_fast frame2 "reagent_stock" ;;
    reagent_stock <- nest_12_reservoir_15ml name ;;
    assign_child_resource (VLabware reagent_stock) (slot 3) ;;
    let frame3 := ("reagent_stock", VLabware reagent_stock) :: frame2 in
    name <- load_fast frame3 "waste_res" ;;
    waste_res <- nest_1_reservoir_195ml name ;;
    loc <- get_slot 9 ;;
    assign_child_resource (VLabware waste_res) (location loc) ;;
    ret (mkDeck tiprack working_plate reagent_stock waste_res)).
End BuildDeck.

(** ** [ot2plr.py]: the protocol issued call by call *)

(** The names bound at module level when [run] is called: the imports, the
    constants and the three functions. *)
Definition module_globals : list string :=
  ["LiquidHandler"; "OpentronsBackend"; "Coordinate"; "TipRack"; "Plate";
   "corning_96_wellplate_360ul_flat"; "nest_12_reservoir_15ml";
   "nest_1_reservoir_195ml"; "opentrons_96_tiprack_300ul";
   "MEDIUM_VOL"; "PBS_VOL"; "LYSIS_VOL"; "LUC_VOL"; "TOTAL_COL";
   "_build_deck"; "_tip_gen"; "run"].

(** [run(simulation: bool = False)]: the value the parameter gets. *)
Definition bind_simulation (arg : option bool) : bool :=
  match arg with
  | Some b => b
  | None => false
  end.

(** The tip racks at the head of a list of values, up to the first entry
    that is no tip rack, and whether there is such an entry. *)
Fixpoint leading_racks (l : list value) : list TipRack * bool :=
  match l with
  | [] => ([], false)
  | VRack r :: l' => let (racks, blocked) := leading_racks l' in (r :: racks, blocked)
  | _ :: _ => ([], true)
  end.

(** [_tip_gen(l)] for the list [l = deck["tip_racks"]], whose entries are
    what [assign_child_resource] returned: tip racks, or [None] when the
    method returns nothing.  Creating the generator runs none of its
    body; an entry that is no tip rack is met when the outer loop gets to
    it, after the tips of the racks before it. *)
Definition tip_generator (l : list value) : generator :=
  match leading_racks l with
  | (racks, false) => _tip_gen racks
  | (racks, true) => Blocked [] racks
  end.

(** The entries the embedding follows through the generator. *)
Definition rack_or_none (v : value) : bool :=
  match v with
  | VRack _ | VNone => true
  | _ => false
  end.

(** Step 1, lines 77-83. *)
Definition remove_medium (waste : well) (cells_all : list well) : M unit :=
  for_each cells_all (fun cell =>
    t <- next_tips ;;
    emit (pick_up_tips t) ;;
    emit (aspirate cell (MEDIUM_VOL * 1.2) 0.2
                   (Some (mkCoordinate (-2.5) 0 0.2))) ;;
    emit (dispense waste (MEDIUM_VOL * 1.2) 3
                   (Some (mkCoordinate 0 0 (-5)))) ;;
    emit drop_tips).

(** Step 2, lines 86-92. *)
Definition pbs_wash_add (pbs : well) (cells_all : list well) : M unit :=
  t <- next_tips ;;
  emit (pick_up_tips t) ;;
  for_each cells_all (fun cell =>
    emit (aspirate pbs PBS_VOL 3 None) ;;
    emit (air_gap 20) ;;
    emit (dispense cell (PBS_VOL + 20) 0.3
                   (Some (mkCoordinate 0 0 (-2))))) ;;
  emit drop_tips.

(** Step 3, lines 95-101. *)
Definition pbs_wash_remove (waste : well) (cells_all : list well) : M unit :=
  for_each cells_all (fun cell =>
    t <- next_tips ;;
    emit (pick_up_tips t) ;;
    emit (aspirate cell (PBS_VOL * 1.5) 0.2
                   (Some (mkCoordinate (-2.5) 0 0.2))) ;;
    emit (dispense waste (PBS_VOL * 1.5) 3
                   (Some (mkCoordinate 0 0 (-5)))) ;;
    emit drop_tips).

(** Step 4, lines 104-112. *)
Definition add_lysis (lysis : well) (cells_all : list well) : M unit :=
  t <- next_tips ;;
  emit (pick_up_tips t) ;;
  for_each cells_all (fun cell =>
    emit (aspirate lysis LYSIS_VOL 0.5 None) ;;
    emit (delay (seconds 2)) ;;
    emit (dispense cell LYSIS_VOL 0.3 (Some (mkCoordinate 0 0 5))) ;;
    emit (delay (seconds 2))) ;;
  emit drop_tips ;;
  emit (delay (minutes 3)).

(** Step 5, lines 115-123. *)
Definition add_luciferase (luciferase : well) (cells_all : list well) : M unit :=
  for_each cells_all (fun cell =>
    t <- next_tips ;;
    emit (pick_up_tips t) ;;
    emit (aspirate luciferase LUC_VOL 0.75 None) ;;
    emit (delay (seconds 2)) ;;
    emit (dispense cell LUC_VOL 0.75 (Some (mkCoordinate 0 0 (-0.5)))) ;;
    emit (mix cell 75 3 3 (mkCoordinate 0 0 0.5)) ;;
    emit drop_tips).

(** [deck["working_plate"].rows()[0][:count]]. *)
Definition sample_columns (plate : Labware) (count : Z) : M (list well) :=
  row0 <- index (rows plate) 0 ;;
  ret (slice_upto row0 count).

(** Lines 65-125 of [run]: what follows [deck = _build_deck(lh)]. *)
Definition protocol (deck : Deck) : M unit :=
  set_tips (tip_generator (tip_racks deck)) ;;
  pbs        <- index (wells (reagent_res deck)) 0 ;;
  lysis      <- index (wells (reagent_res deck)) 1 ;;
  luciferase <- index (wells (reagent_res deck)) 2 ;;
  waste      <- index (wells (waste_res deck)) 0 ;;
  cells_all  <- sample_columns (working_plate deck) TOTAL_COL ;;
  emit setup ;;
  remove_medium waste cells_all ;;
  pbs_wash_add pbs cells_all ;;
  pbs_wash_remove waste cells_all ;;
  add_lysis lysis cells_all ;;
  add_luciferase luciferase cells_all ;;
  emit finish.

Section Run.
Context {L : Library}.

(** [run(simulation)]; [None] is the call that omits the argument.  The
    callee [MyBackend] is looked up before the call is made. *)
Definition run (simulation : option bool) : M unit :=
  in_frame "run" (
    let simulation := bind_simulation simulation in
    load_global module_globals "MyBackend" ;;
    let backend := VObj "MyBackend" in
    let lh := VObj "LiquidHandler" in
    deck <- _build_deck lh ;;
    protocol deck).

(** The [__main__] block. *)
Definition main : M unit := run (Some true).
End Run.

(** ** The high-level variant: [async def run] over [DPLiquidHandler] *)

Module HighLevel.

Definition module_globals : list string :=
  ["LiquidHandler"; "OpentronsBackend"; "Coordinate"; "TipRack"; "Plate";
   "corning_96_wellplate_360ul_flat"; "nest_12_reservoir_15ml";
   "nest_1_reservoir_195ml"; "opentrons_96_tiprack_300ul";
   "DPLiquidHandler";
   "MEDIUM_VOL"; "PBS_VOL"; "LYSIS_VOL"; "LUC_VOL"; "TOTAL_COL";
   "_build_deck"; "run"].

(** [async def run(simulation: bool = True)]. *)
Definition bind_simulation (arg : option bool) : bool :=
  match arg with
  | Some b => b
  | None => true
  end.

(** A coroutine object: the body, not yet started. *)
Inductive coroutine : Type := Coroutine (body : M unit).

(** Driving a coroutine to completion ([await], [asyncio.run]). *)
Definition drive (c : coroutine) : M unit :=
  match c with Coroutine body => body end.

Definition coord (x y z : Q) : value := VCoord (mkCoordinate x y z).
Definition nums (q : Q) (n : nat) : value := VList (repeat (VNum q) n).
Definition cells (l : list well) : value := VList (map VWell l).

Section Run.
Context {L : Library}.

(** Lines 57-122: the body of the coroutine. *)
Definition run_body (simulation : bool) : M unit :=
  in_frame "run" (
    load_global module_globals "MyBackend" ;;
    let backend := VObj "MyBackend" in
    let lh := VObj "DPLiquidHandler" in
    deck <- _build_deck lh ;;
    pbs        <- index (wells (reagent_res deck)) 0 ;;
    lysis      <- index (wells (reagent_res deck)) 1 ;;
    luciferase <- index (wells (reagent_res deck)) 2 ;;
    cells_all  <- sample_columns (working_plate deck) TOTAL_COL ;;
    emit setup ;;
    remove_liquid
      [("vols", nums MEDIUM_VOL 12);
       ("sources", cells cells_all);
       ("tip_racks", VList (tip_racks deck));
       ("offsets", VList [coord (-2.5) 0 (-0.2); coord 0 0 (-5)]);
       ("liquid_height", VList [VNum 0.2; VNone]);
       ("flow_rates", VList [VNum 0.2; VNum 3])] ;;
    add_liquid
      [("vols", nums PBS_VOL 12);
       ("reagent_sources", VList [VWell pbs]);
       ("targets", cells cells_all);
       ("delays", VList [VInt 1]);
       ("tip_racks", VList (tip_racks deck));
       ("flow_rates", VList [VNum 3; VNum 0.3]);
       ("offsets", VList [coord 0 0 0.5; coord 0 0 (-2)]);
       ("blow_out_air_volume", VList [VNum 20; VNone])] ;;
    remove_liquid
      [("vols", nums (PBS_VOL * 1.5) 12);
       ("liquid_height", VList [VNum 0.2; VNone]);
       ("offsets", VList [coord (-2.5) 0 0; coord 0 0 (-5)]);
       ("sources", cells cells_all);
       ("tip_racks", VList (tip_racks deck))] ;;
    add_liquid
      [("vols", nums LYSIS_VOL 12);
       ("reagent_sources", VList [VWell lysis]);
       ("sources", cells cells_all);
       ("delays", VList [VInt 2; VInt 2]);
       ("tip_racks", VList (tip_racks deck))] ;;
    add_liquid
      [("vols", nums LUC_VOL 12);
       ("reagent_sources", VList [VWell luciferase]);
       ("targets", cells cells_all);
       ("delays", VList [VInt 1]);
       ("tip_racks", VList (tip_racks deck));
       ("mix_time", VList [VInt 3]);
       ("mix_vols", VList [VInt 75]);
       ("mix_liquid_height", VList [VNum 0.5])]).

(** Calling an [async def] runs none of its body: it binds the
    arguments and returns the coroutine object. *)
Definition run (simulation : option bool) : M coroutine :=
  ret (Coroutine (run_body (bind_simulation simulation))).

(** The [__main__] block: the coroutine is created and dropped. *)
Definition main : M unit := run (Some true) ;; ret tt.
End Run.

End HighLevel.

(** A library instance to run the definitions on: [assign_child_resource]
    hands back the resource it was given, the high-level steps issue
    nothing. *)
Definition echo_library : Library := {|
  assign_child_resource := fun r _ => ret r;
  get_slot := fun n => ret (VInt n);
  remove_liquid := fun _ => ret tt;
  add_liquid := fun _ => ret tt
|}.

(** A library whose [assign_child_resource] returns nothing, as a method
    that only records the binding does. *)
Definition silent_library : Library := {|
  assign_child_resource := fun _ _ => ret VNone;
  get_slot := fun n => ret (VInt n);
  remove_liquid := fun _ => ret tt;
  add_liquid := fun _ => ret tt
|}.

(** ** The calls of each step, as lists *)

(** The liquid movements of a step at one target location, without the
    tip handling. *)
Definition medium_transfer (waste cell : well) : list primitive :=
  [aspirate cell (MEDIUM_VOL * 1.2) 0.2 (Some (mkCoordinate (-2.5) 0 0.2));
   dispense waste (MEDIUM_VOL * 1.2) 3 (Some (mkCoordinate 0 0 (-5)))].

Definition wash_add_transfer (pbs cell : well) : list primitive :=
  [aspirate pbs PBS_VOL 3 None;
   air_gap 20;
   dispense cell (PBS_VOL + 20) 0.3 (Some (mkCoordinate 0 0 (-2)))].

Definition wash_remove_transfer (waste cell : well) : list primitive :=
  [aspirate cell (PBS_VOL * 1.5) 0.2 (Some (mkCoordinate (-2.5) 0 0.2));
   dispense waste (PBS_VOL * 1.5) 3 (Some (mkCoordinate 0 0 (-5)))].

Definition lysis_transfer (lysis cell : well) : list primitive :=
  [aspirate lysis LYSIS_VOL 0.5 None;
   delay (seconds 2);
   dispense cell LYSIS_VOL 0.3 (Some (mkCoordinate 0 0 5));
   delay (seconds 2)].

Definition luciferase_transfer (luciferase cell : well) : list primitive :=
  [aspirate luciferase LUC_VOL 0.75 None;
   delay (seconds 2);
   dispense cell LUC_VOL 0.75 (Some (mkCoordinate 0 0 (-0.5)));
   mix cell 75 3 3 (mkCoordinate 0 0 0.5)].

Definition is_tip_call (p : primitive) : bool :=
  match p with
  | pick_up_tips _ | drop_tips => true
  | _ => false
  end.

Definition is_pick_up (p : primitive) : bool :=
  match p with
  | pick_up_tips _ => true
  | _ => false
  end.

Definition is_finish (p : primitive) : bool :=
  match p with
  | finish => true
  | _ => false
  end.

(** A step with one tip per target location: every location's transfer
    is framed by its own pick-up and drop. *)
Definition tip_per_location (transfer : well -> list primitive)
    (cells : list well) (ts : list tip) : list primitive :=
  flat_map (fun ct => pick_up_tips (snd ct) :: transfer (fst ct) ++ [drop_tips])
           (combine cells ts).

(** A step with one tip for all its target locations: one pick-up before
    the transfers, one drop after them. *)
Definition tip_shared (transfer : well -> list primitive)
    (cells : list well) (t : tip) : list primitive :=
  pick_up_tips t :: flat_map transfer cells ++ [drop_tips].

Close Scope Q_scope.
Unset Implicit Arguments.

(** ** Reference inputs *)

(** The deck the source describes: four distinct racks of 96 tips, the
    8 x 12 working plate, the 12-channel reagent reservoir and the
    single-channel waste reservoir. *)
Definition four_racks : list TipRack :=
  [mkTipRack 0 96; mkTipRack 1 96; mkTipRack 2 96; mkTipRack 3 96].

Definition reference_deck : Deck :=
  mkDeck (map VRack four_racks) (mkLabware 4 8 12) (mkLabware 5 1 12)
         (mkLabware 6 1 1).

(** The same deck with a single tip on it. *)
Definition one_tip_deck : Deck :=
  mkDeck [VRack (mkTipRack 0 1)] (mkLabware 4 8 12) (mkLabware 5 1 12)
         (mkLabware 6 1 1).

(** The deck holds the racks [racks], a plate with a first row, a reagent
    reservoir with channels 0 to 2 and a waste reservoir with channel 0. *)
Definition deck_ready (deck : Deck) (racks : list TipRack) : Prop :=
  tip_racks deck = map VRack racks
  /\ 0 < lw_rows (working_plate deck)
  /\ 0 < lw_rows (reagent_res deck) /\ 3 <= lw_cols (reagent_res deck)
  /\ 0 < lw_rows (waste_res deck) /\ 0 < lw_cols (waste_res deck).

(** The wells [run] names: channel [i] of the reagent reservoir, the
    waste channel, and the sample columns. *)
Definition reagent (deck : Deck) (i : nat) : well :=
  mkWell (lw_id (reagent_res deck)) 0 i.

Definition waste_well (deck : Deck) : well :=
  mkWell (lw_id (waste_res deck)) 0 0.

Definition columns (deck : Deck) : list well :=
  map (mkWell (lw_id (working_plate deck)) 0)
      (seq 0 (Nat.min (Z.to_nat TOTAL_COL) (lw_cols (working_plate deck)))).

(** Whatever the outcome of [c], the calls it issues are appended to the
    calls issued before, and all of them satisfy [P]. *)
Definition issues (P : primitive -> Prop) {A : Type} (c : M A) : Prop :=
  forall m, exists tr,
    emitted (snd (c m)) = emitted m ++ tr /\ Forall P tr.

(** [c] calls [finish] exactly when it returns, as its last call, and
    never otherwise. *)
Definition finish_last {A : Type} (c : M A) : Prop :=
  forall m, exists tr,
    Forall (fun p => p <> finish) tr
    /\ match c m with
       | (Ok _, m') => emitted m' = emitted m ++ tr ++ [finish]
       | (Raise _ _, m') => emitted m' = emitted m ++ tr
       end.

(** The order of the calls, whatever tip each pick-up takes. *)
Definition no_tip : tip := mkTip 0 0.

Definition forget_tip (p : primitive) : primitive :=
  match p with
  | pick_up_tips _ => pick_up_tips no_tip
  | _ => p
  end.

(** [c] issues the calls of [plan], up to the tips picked: all of them,
    in order, when it returns, and an initial part of them, in order, when
    it raises. *)
Definition follows (plan : list primitive) {A : Type} (c : M A) : Prop :=
  forall m, exists tr,
    emitted (snd (c m)) = emitted m ++ tr
    /\ match fst (c m) with
       | Ok _ => map forget_tip tr = plan
       | Raise _ _ => exists more, map forget_tip tr ++ more = plan
       end.

(** The calls of the five steps over [cells], in the order [run] declares
    them, between [setup] and [finish]; every pick-up is shown with
    [no_tip]. *)
Definition declared_order (deck : Deck) (cells : list well) : list primitive :=
  [setup]
  ++ flat_map (fun cell => pick_up_tips no_tip
                           :: medium_transfer (waste_well deck) cell ++ [drop_tips])
              cells
  ++ (pick_up_tips no_tip
      :: flat_map (wash_add_transfer (reagent deck 0)) cells ++ [drop_tips])
  ++ flat_map (fun cell => pick_up_tips no_tip
                           :: wash_remove_transfer (waste_well deck) cell ++ [drop_tips])
              cells
  ++ (pick_up_tips no_tip
      :: flat_map (lysis_transfer (reagent deck 1)) cells
      ++ [drop_tips; delay (minutes 3)])
  ++ flat_map (fun cell => pick_up_tips no_tip
                           :: luciferase_transfer (reagent deck 2) cell ++ [drop_tips])
              cells
  ++ [finish].

(** ** Holding a tip *)

(** What a call does to the pipette: a pick-up needs a free pipette, a drop
    and every liquid movement need a tip on it; [None] is a call issued in
    the wrong state. *)
Definition tip_step (holding : bool) (p : primitive) : option bool :=
  match p with
  | pick_up_tips _ => if holding then None else Some true
  | drop_tips => if holding then Some false else None
  | aspirate _ _ _ _ | dispense _ _ _ _ | air_gap _ | mix _ _ _ _ _ =>
      if holding then Some true else None
  | setup | finish | delay _ => Some holding
  end.

Fixpoint tip_discipline (holding : bool) (tr : list primitive) : option bool :=
  match tr with
  | [] => Some holding
  | p :: tr' =>
      match tip_step holding p with
      | Some h => tip_discipline h tr'
      | None => None
      end
  end.

(** Started with the pipette in state [h], [c] issues every call in a
    state that allows it; it leaves the pipette in state [h'] when it
    returns and without a tip when it raises. *)
Definition keeps_tips (h h' : bool) {A : Type} (c : M A) : Prop :=
  forall m, exists tr,
    emitted (snd (c m)) = emitted m ++ tr
    /\ tip_discipline h tr
       = Some (match fst (c m) with Ok _ => h' | Raise _ _ => false end).

(** ** The statements of the high-level [run] after the deck is built *)

Section HighLevelProtocol.
Context {L : Library}.

(** Lines 62-122 of the high-level variant: what follows
    [deck = _build_deck(lh)]. *)
Definition high_level_protocol (deck : Deck) : M unit :=
  pbs        <- index (wells (reagent_res deck)) 0 ;;
  lysis      <- index (wells (reagent_res deck)) 1 ;;
  luciferase <- index (wells (reagent_res deck)) 2 ;;
  cells_all  <- sample_columns (working_plate deck) TOTAL_COL ;;
  emit setup ;;
  remove_liquid
    [("vols", HighLevel.nums MEDIUM_VOL 12);
     ("sources", HighLevel.cells cells_all);
     ("tip_racks", VList (tip_racks deck));
     ("offsets", VList [HighLevel.coord (-2.5) 0 (-0.2); HighLevel.coord 0 0 (-5)]);
     ("liquid_height", VList [VNum 0.2; VNone]);
     ("flow_rates", VList [VNum 0.2; VNum 3])] ;;
  add_liquid
    [("vols", HighLevel.nums PBS_VOL 12);
     ("reagent_sources", VList [VWell pbs]);
     ("targets", HighLevel.cells cells_all);
     ("delays", VList [VInt 1]);
     ("tip_racks", VList (tip_racks deck));
     ("flow_rates", VList [VNum 3; VNum 0.3]);
     ("offsets", VList [HighLevel.coord 0 0 0.5; HighLevel.coord 0 0 (-2)]);
     ("blow_out_air_volume", VList [VNum 20; VNone])] ;;
  remove_liquid
    [("vols", HighLevel.nums (PBS_VOL * 1.5) 12);
     ("liquid_height", VList [VNum 0.2; VNone]);
     ("offsets", VList [HighLevel.coord (-2.5) 0 0; HighLevel.coord 0 0 (-5)]);
     ("sources", HighLevel.cells cells_all);
     ("tip_racks", VList (tip_racks deck))] ;;
  add_liquid
    [("vols", HighLevel.nums LYSIS_VOL 12);
     ("reagent_sources", VList [VWell lysis]);
     ("sources", HighLevel.cells cells_all);
     ("delays", VList [VInt 2; VInt 2]);
     ("tip_racks", VList (tip_racks deck))] ;;
  add_liquid
    [("vols", HighLevel.nums LUC_VOL 12);
     ("reagent_sources", VList [VWell luciferase]);
     ("targets", HighLevel.cells cells_all);
     ("delays", VList [VInt 1]);
     ("tip_racks", VList (tip_racks deck));
     ("mix_time", VList [VInt 3]);
     ("mix_vols", VList [VInt 75]);
     ("mix_liquid_height", VList [VNum 0.5])].
End HighLevelProtocol.

(** A library whose high-level steps record one call each, to tell them
    apart in the calls issued: [remove_liquid] an aspirate and
    [add_liquid] a dispense at the first well it is given. *)
Definition first_well (kw : list (string * value)) (key : string) : well :=
  match lookup kw key with
  | Some (VList (VWell w :: _)) => w
  | _ => mkWell 0 0 0
  end.

Definition tracing_library : Library := {|
  assign_child_resource := fun r _ => ret r;
  get_slot := fun n => ret (VInt n);
  remove_liquid := fun kw => emit (aspirate (first_well kw "sources") 0 0 None);
  add_liquid := fun kw => emit (dispense (first_well kw "reagent_sources") 0 0 None)
|}.

(** The calls of the five steps, in the order [run] declares them,
    between [setup] and [finish], for the wells [run] has resolved; every
    pick-up is shown with [no_tip]. *)
Definition protocol_plan (pbs lysis luciferase waste : well)
    (cells : list well) : list primitive :=
  [setup]
  ++ flat_map (fun cell => pick_up_tips no_tip
                           :: medium_transfer waste cell ++ [drop_tips])
              cells
  ++ (pick_up_tips no_tip
      :: flat_map (wash_add_transfer pbs) cells ++ [drop_tips])
  ++ flat_map (fun cell => pick_up_tips no_tip
                           :: wash_remove_transfer waste cell ++ [drop_tips])
              cells
  ++ (pick_up_tips no_tip
      :: flat_map (lysis_transfer lysis) cells
      ++ [drop_tips; delay (minutes 3)])
  ++ flat_map (fun cell => pick_up_tips no_tip
                           :: luciferase_transfer luciferase cell ++ [drop_tips])
              cells
  ++ [finish].

(** * Properties *)

(** ** The tip generator *)

Lemma next_rack_none (rest : list TipRack) :
  all_tips rest = [] -> next_rack rest = None.
Proof.
  induction rest as [|r rest IH]; simpl; intros H; [reflexivity|].
  unfold all_tips in H; simpl in H.
  apply app_eq_nil in H as [Hr Hrest].
  rewrite Hr. apply IH, Hrest.
Qed.

Lemma next_rack_some (rest : list TipRack) (t : tip) (l : list tip) :
  all_tips rest = t :: l ->
  exists cur rest', next_rack rest = Some (t, cur, rest')
                    /\ cur ++ all_tips rest' = l.
Proof.
  induction rest as [|r rest IH]; simpl; intros H; [discriminate|].
  unfold all_tips in H; simpl in H.
  destruct (rack_iter r) as [|t' cur] eqn:Hr; simpl in H.
  - apply IH, H.
  - injection H as -> <-. exists cur, rest. split; reflexivity.
Qed.

Lemma next_yields (g : generator) (t : tip) (l : list tip) :
  is_live g = true -> remaining g = t :: l ->
  exists g', next g = (Ok t, g') /\ is_live g' = true /\ remaining g' = l.
Proof.
  destruct g as [[|t' cur] rest| |cur rest]; simpl; intros Hl H;
    try discriminate.
  - destruct (next_rack_some rest _ _ H) as (cur & rest' & -> & Hrem).
    exists (Suspended cur rest'). repeat split. exact Hrem.
  - injection H as -> <-. exists (Suspended cur rest). repeat split.
Qed.

Lemma next_exhausted (g : generator) :
  is_live g = true -> remaining g = [] ->
  next g = (Raise (RuntimeError "Out of tips!") ["_tip_gen"], Finished).
Proof.
  destruct g as [[|t' cur] rest| |cur rest]; simpl; intros Hl H;
    try discriminate.
  rewrite (next_rack_none rest H). reflexivity.
Qed.

Lemma next_n_app (n k : nat) (g : generator) :
  next_n (n + k) g =
  (fst (next_n n g) ++ fst (next_n k (snd (next_n n g))),
   snd (next_n k (snd (next_n n g)))).
Proof.
  revert g; induction n as [|n IH]; intros g; simpl.
  - destruct (next_n k g); reflexivity.
  - destruct (next g) as [r g1]. rewrite IH.
    destruct (next_n n g1) as [rs g2]; simpl.
    destruct (next_n k g2); reflexivity.
Qed.

Lemma next_n_yields (l1 l2 : list tip) (g : generator) :
  is_live g = true -> remaining g = l1 ++ l2 ->
  exists g', next_n (length l1) g = (map Ok l1, g')
             /\ is_live g' = true /\ remaining g' = l2.
Proof.
  revert g; induction l1 as [|t l1 IH]; intros g Hl H; simpl.
  - exists g. repeat split; assumption.
  - destruct (next_yields g _ _ Hl H) as (g1 & -> & Hl1 & H1).
    destruct (IH g1 Hl1 H1) as (g2 & -> & Hl2 & H2).
    exists g2. repeat split; assumption.
Qed.

Lemma rack_iter_rack (r : TipRack) (t : tip) :
  In t (rack_iter r) -> tip_rack t = rack_id r.
Proof.
  unfold rack_iter. rewrite in_map_iff. intros (p & <- & _). reflexivity.
Qed.

Lemma rack_iter_NoDup (r : TipRack) : NoDup (rack_iter r).
Proof.
  unfold rack_iter. apply Injective_map_NoDup.
  - intros a b H. injection H. auto.
  - apply seq_NoDup.
Qed.

Lemma all_tips_rack (racks : list TipRack) (t : tip) :
  In t (all_tips racks) -> In (tip_rack t) (map rack_id racks).
Proof.
  unfold all_tips. rewrite in_concat. intros (l & Hl & Ht).
  apply in_map_iff in Hl as (r & <- & Hr).
  rewrite (rack_iter_rack r t Ht). apply in_map, Hr.
Qed.

Lemma all_tips_NoDup (racks : list TipRack) :
  NoDup (map rack_id racks) -> NoDup (all_tips racks).
Proof.
  induction racks as [|r racks IH]; simpl; intros H.
  - constructor.
  - inversion H as [|? ? Hnotin Hnd]; subst.
    unfold all_tips; simpl. fold (all_tips racks).
    apply NoDup_app; [apply rack_iter_NoDup | apply IH, Hnd |].
    intros t Ht1 Ht2. apply Hnotin.
    rewrite <- (rack_iter_rack r t Ht1). apply all_tips_rack, Ht2.
Qed.

Lemma tip_gen_exhaustion_prefix (racks : list TipRack) :
  fst (next_n (length (all_tips racks)) (_tip_gen racks))
  = map Ok (all_tips racks).
Proof.
  assert (Hrem : remaining (_tip_gen racks) = all_tips racks ++ [])
    by (simpl; now rewrite app_nil_r).
  destruct (next_n_yields (all_tips racks) [] (_tip_gen racks) eq_refl Hrem)
    as (g & Hn & _). rewrite Hn. reflexivity.
Qed.

(** C2 (as stated, refuted): an inventory that lists one rack object twice
    has two tip positions in its enumeration, both [next] calls succeed,
    and they return the same tip. *)
Lemma tip_gen_shared_rack_repeats :
  let r := mkTipRack 0 1 in
  length (all_tips [r; r]) = 2
  /\ fst (next_n 2 (_tip_gen [r; r])) = [Ok (mkTip 0 0); Ok (mkTip 0 0)]
  /\ ~ NoDup [mkTip 0 0; mkTip 0 0].
Proof.
  repeat split.
  intros H. inversion H as [|? ? Hnotin _]; subst.
  apply Hnotin. left. reflexivity.
Qed.

(** C2 (amended): for every list of racks enumerating N tip positions, the
    first N [next] calls succeed and return the positions in rack order
    and then within-rack position order, the (N+1)-th call raises
    [RuntimeError("Out of tips!")] and leaves the generator finished; the
    N tips are distinct whenever no rack object is listed twice. *)
Theorem tip_gen_exhaustion (racks : list TipRack) :
  let N := length (all_tips racks) in
  fst (next_n N (_tip_gen racks)) = map Ok (all_tips racks)
  /\ next_n (S N) (_tip_gen racks)
     = (map Ok (all_tips racks)
          ++ [Raise (RuntimeError "Out of tips!") ["_tip_gen"]],
        Finished)
  /\ (NoDup (map rack_id racks) -> NoDup (all_tips racks)).
Proof.
  intros N.
  assert (Hrem : remaining (_tip_gen racks) = all_tips racks ++ [])
    by (simpl; now rewrite app_nil_r).
  destruct (next_n_yields (all_tips racks) [] (_tip_gen racks) eq_refl Hrem)
    as (g & Hn & Hl & Hg).
  fold N in Hn. split; [|split].
  - rewrite Hn. reflexivity.
  - replace (S N) with (N + 1) by lia.
    rewrite next_n_app, Hn. simpl.
    rewrite (next_exhausted g Hl Hg). reflexivity.
  - apply all_tips_NoDup.
Qed.

Lemma tip_gen_exhaustion_witness :
  NoDup (map rack_id four_racks) /\ NoDup (all_tips four_racks).
Proof.
  assert (H : NoDup (map rack_id four_racks)).
  { simpl. repeat constructor; simpl; intuition discriminate. }
  split; [exact H|].
  apply (tip_gen_exhaustion four_racks). exact H.
Defined.

(** ** Name resolution in [run] and [_build_deck] *)

(** C1 (as stated, refuted): the [NameError] of [run] is raised in [run]'s
    own frame, at the lookup of [MyBackend]; [_build_deck] is not on the
    traceback, deck construction has not begun. *)
Lemma run_fails_before_build_deck :
  @run echo_library (Some false) initial
  = (Raise (NameError "MyBackend") ["run"], initial)
  /\ ~ In "_build_deck" ["run"].
Proof.
  split; [reflexivity|].
  simpl. intros [H|[]]. discriminate H.
Qed.

(** C1 (amended): for every argument, [run] of [ot2plr.py] raises
    [NameError] for [MyBackend] in its own frame, before [_build_deck] is
    called and with no call issued on the liquid handler; calling the
    [async def run] of the high-level variant only creates a coroutine
    (which its [__main__] block never drives), and the coroutine raises
    the same [NameError] as soon as it is driven; [_build_deck], whenever
    called, raises [UnboundLocalError] (a [NameError]) at its first read
    of [tiprack], with nothing issued. *)
Theorem run_raises_NameError (L : Library) (arg : option bool) (m : machine) :
  run arg m = (Raise (NameError "MyBackend") ["run"], m)
  /\ (exists c, HighLevel.run arg m = (Ok c, m)
                /\ HighLevel.drive c m
                   = (Raise (NameError "MyBackend") ["run"], m))
  /\ HighLevel.main m = (Ok tt, m)
  /\ (forall lh, _build_deck lh m
                 = (Raise (UnboundLocalError "tiprack") ["_build_deck"], m))
  /\ is_NameError (NameError "MyBackend") = true
  /\ is_NameError (UnboundLocalError "tiprack") = true.
Proof.
  split; [reflexivity|]. split.
  - eexists. split; reflexivity.
  - repeat split.
Qed.

(** ** Selecting the sample columns *)

Lemma seq_increasing (a n : nat) : StronglySorted lt (seq a n).
Proof.
  revert a; induction n as [|n IH]; intros a; simpl; constructor.
  - apply IH.
  - apply Forall_forall. intros x Hx. apply in_seq in Hx. lia.
Qed.

Lemma rows_first (plate : Labware) :
  0 < lw_rows plate ->
  nth_error (rows plate) 0
  = Some (map (mkWell (lw_id plate) 0) (seq 0 (lw_cols plate))).
Proof.
  unfold rows. destruct (lw_rows plate) as [|n]; [lia|]. reflexivity.
Qed.

Lemma firstn_seq_min (k a n : nat) :
  firstn k (seq a n) = seq a (Nat.min k n).
Proof.
  revert a n; induction k as [|k IH]; intros a [|n]; simpl; try reflexivity.
  rewrite IH. reflexivity.
Qed.

Lemma firstn_row (i n k : nat) :
  firstn k (map (mkWell i 0) (seq 0 n)) = map (mkWell i 0) (seq 0 (Nat.min k n)).
Proof.
  rewrite firstn_map, firstn_seq_min. reflexivity.
Qed.

Lemma sample_columns_row (plate : Labware) (k : Z) (m : machine) :
  0 < lw_rows plate -> (0 <= k)%Z ->
  sample_columns plate k m
  = (Ok (map (mkWell (lw_id plate) 0)
             (seq 0 (Nat.min (Z.to_nat k) (lw_cols plate)))), m).
Proof.
  intros Hrows Hk.
  unfold sample_columns, index, bind. rewrite (rows_first plate Hrows).
  unfold ret, slice_upto.
  destruct (Z.ltb_spec k 0) as [Hneg|_]; [lia|].
  rewrite firstn_row. reflexivity.
Qed.

(** C4 (as stated, refuted): asking for three columns of a plate whose
    rows have two wells does not fail; the slice returns the two wells. *)
Lemma sample_columns_beyond_row_length :
  sample_columns (mkLabware 0 1 2) 3 initial
  = (Ok [mkWell 0 0 0; mkWell 0 0 1], initial).
Proof. reflexivity. Qed.

(** C4 (amended): for every count k >= 0, on a plate with at least one
    row the selection returns the first min(k, row length) wells of the
    working plate's first row, in strictly increasing column order: exactly
    k wells when k is at most the row length, and the whole row, with no
    error, when k is greater.  It raises (IndexError) only when the
    plate has no row. *)
Theorem sample_columns_slice (plate : Labware) (k : Z) (m : machine) :
  (0 <= k)%Z ->
  (lw_rows plate = 0 -> sample_columns plate k m = (Raise IndexError [], m))
  /\ (0 < lw_rows plate ->
      exists cells,
        sample_columns plate k m = (Ok cells, m)
        /\ cells = map (mkWell (lw_id plate) 0)
                       (seq 0 (Nat.min (Z.to_nat k) (lw_cols plate)))
        /\ length cells = Nat.min (Z.to_nat k) (lw_cols plate)
        /\ StronglySorted lt (map w_col cells)).
Proof.
  intros Hk. split; intros Hrows.
  - unfold sample_columns, index, rows. rewrite Hrows. reflexivity.
  - eexists. split; [|split; [reflexivity|split]].
    + apply sample_columns_row; assumption.
    + rewrite length_map, length_seq. reflexivity.
    + rewrite map_map. simpl. rewrite map_id. apply seq_increasing.
Qed.

Lemma sample_columns_slice_witness :
  exists cells,
    sample_columns (mkLabware 4 8 12) 12 initial = (Ok cells, initial)
    /\ cells = map (mkWell 4 0) (seq 0 12)
    /\ length cells = 12
    /\ StronglySorted lt (map w_col cells).
Proof.
  apply (sample_columns_slice (mkLabware 4 8 12) 12 initial); simpl; lia.
Defined.

(** ** The tip racks of the deck *)

Lemma count_occ_rack_iter (r : TipRack) (t : tip) :
  In t (rack_iter r) -> count_occ tip_eq_dec (rack_iter r) t = 1.
Proof.
  intros H. apply NoDup_count_occ'; [apply rack_iter_NoDup | exact H].
Qed.

Lemma leading_racks_map (racks : list TipRack) :
  leading_racks (map VRack racks) = (racks, false).
Proof.
  induction racks as [|r racks IH]; simpl; [reflexivity|].
  rewrite IH. reflexivity.
Qed.

Lemma tip_generator_racks (racks : list TipRack) :
  tip_generator (map VRack racks) = _tip_gen racks.
Proof. unfold tip_generator. rewrite leading_racks_map. reflexivity. Qed.

(** C10 (as stated, refuted): with an [assign_child_resource] that returns
    nothing, the four entries of the tip-rack list are four [None], no
    tip rack at all, and the generator over them raises [TypeError] at
    its first [next] without enumerating a tip; and [_build_deck] as
    written returns no tip-rack list whatever the method returns. *)
Lemma tip_rack_list_of_none :
  fst (@build_tipracks silent_library (VStr "tiprack") initial)
  = Ok [VNone; VNone; VNone; VNone]
  /\ next (tip_generator [VNone; VNone; VNone; VNone])
     = (Raise TypeError ["_tip_gen"], Finished)
  /\ fst (@_build_deck silent_library (VObj "LiquidHandler") initial)
     = Raise (UnboundLocalError "tiprack") ["_build_deck"]
  /\ fst (@_build_deck echo_library (VObj "LiquidHandler") initial)
     = Raise (UnboundLocalError "tiprack") ["_build_deck"].
Proof. repeat split. Qed.

(** C10 (amended): lines 28-31 construct a single rack of 96 tips and pass
    that one object to [assign_child_resource] for each of the slots 8,
    11, 1 and 4, in this order; the entries of the tip-rack list are the
    four values these calls return.  When they are the rack itself, the
    list is four references to one rack, and [_tip_gen] over it yields
    384 tips that are the 96 positions of that rack, each four times;
    when they are [None], the generator yields no tip and raises
    [TypeError].  [_build_deck] as written raises at its read of
    [tiprack] and returns no list. *)
Theorem tip_rack_list_entries (L : Library) (name : value) (m : machine) :
  let rack := mkTipRack (fresh m) 96 in
  let shared := [rack; rack; rack; rack] in
  (forall entries m',
     build_tipracks name m = (Ok entries, m') ->
     exists e1 e2 e3 e4 m1 m2 m3,
       assign_child_resource (VRack rack) (slot 8)
         (mkMachine (emitted m) (tips m) (S (fresh m))) = (Ok e1, m1)
       /\ assign_child_resource (VRack rack) (slot 11) m1 = (Ok e2, m2)
       /\ assign_child_resource (VRack rack) (slot 1) m2 = (Ok e3, m3)
       /\ assign_child_resource (VRack rack) (slot 4) m3 = (Ok e4, m')
       /\ entries = [e1; e2; e3; e4])
  /\ tip_generator (map VRack shared) = _tip_gen shared
  /\ fst (next_n 384 (_tip_gen shared))
     = map Ok (rack_iter rack ++ rack_iter rack ++ rack_iter rack ++ rack_iter rack)
  /\ length (rack_iter rack) = 96
  /\ (forall t, In t (all_tips shared) <-> In t (rack_iter rack))
  /\ (forall t, In t (rack_iter rack) ->
                count_occ tip_eq_dec (all_tips shared) t = 4)
  /\ next (tip_generator [VNone; VNone; VNone; VNone])
     = (Raise TypeError ["_tip_gen"], Finished)
  /\ (forall lh, _build_deck lh m
                 = (Raise (UnboundLocalError "tiprack") ["_build_deck"], m)).
Proof.
  intros rack shared.
  assert (Hall : all_tips shared
                 = rack_iter rack ++ rack_iter rack ++ rack_iter rack ++ rack_iter rack).
  { change (all_tips shared)
      with (rack_iter rack ++ rack_iter rack ++ rack_iter rack ++ rack_iter rack ++ []).
    rewrite app_nil_r. reflexivity. }
  split; [|split; [|split; [|split; [|split; [|split; [|split]]]]]].
  - intros entries m' Hrun.
    unfold build_tipracks, opentrons_96_tiprack_300ul, bind, new_id, ret in Hrun.
    fold rack in Hrun. unfold tiprack_slots, comprehension, bind, ret in Hrun.
    destruct (assign_child_resource (VRack rack) (slot 8)
                (mkMachine (emitted m) (tips m) (S (fresh m))))
      as [[e1|e tb] m1] eqn:E1; [|discriminate Hrun].
    destruct (assign_child_resource (VRack rack) (slot 11) m1)
      as [[e2|e tb] m2] eqn:E2; [|discriminate Hrun].
    destruct (assign_child_resource (VRack rack) (slot 1) m2)
      as [[e3|e tb] m3] eqn:E3; [|discriminate Hrun].
    destruct (assign_child_resource (VRack rack) (slot 4) m3)
      as [[e4|e tb] m4] eqn:E4; [|discriminate Hrun].
    injection Hrun as <- <-.
    exists e1, e2, e3, e4, m1, m2, m3. repeat split; assumption.
  - apply tip_generator_racks.
  - pose proof (tip_gen_exhaustion_prefix shared) as H.
    rewrite Hall in H.
    replace (length (rack_iter rack ++ rack_iter rack ++ rack_iter rack ++ rack_iter rack))
      with 384 in H.
    + exact H.
    + repeat rewrite length_app. unfold rack_iter.
      rewrite length_map, length_seq. reflexivity.
  - unfold rack_iter. rewrite length_map, length_seq. reflexivity.
  - intros t. rewrite Hall. repeat rewrite in_app_iff. tauto.
  - intros t Ht. rewrite Hall. repeat rewrite count_occ_app.
    rewrite (count_occ_rack_iter rack t Ht). reflexivity.
  - reflexivity.
  - intros lh. reflexivity.
Qed.

Lemma tip_rack_list_entries_witness :
  exists e1 e2 e3 e4,
    map VRack (repeat (mkTipRack 0 96) 4) = [e1; e2; e3; e4]
    /\ e1 = VRack (mkTipRack 0 96) /\ e4 = VRack (mkTipRack 0 96).
Proof.
  destruct (tip_rack_list_entries echo_library (VStr "tiprack") initial)
    as [Hentries _].
  destruct (Hentries (map VRack (repeat (mkTipRack 0 96) 4))
              (mkMachine [] Finished 1) eq_refl)
    as (e1 & e2 & e3 & e4 & m1 & m2 & m3 & H1 & H2 & H3 & H4 & Hlist).
  exists e1, e2, e3, e4. split; [exact Hlist|].
  injection H1 as <- _. injection H4 as <- _. split; reflexivity.
Defined.

(** ** The calls issued by the loops of [run] *)

Lemma machine_eta (m : machine) :
  mkMachine (emitted m ++ []) (tips m) (fresh m) = m.
Proof. destruct m; simpl. rewrite app_nil_r. reflexivity. Qed.

(** A loop that takes a tip at every iteration. *)
Lemma for_each_with_tips (body : well -> M unit)
    (calls : well -> tip -> list primitive) :
  (forall cell m t g, next (tips m) = (Ok t, g) ->
     body cell m = (Ok tt, mkMachine (emitted m ++ calls cell t) g (fresh m))) ->
  forall cells ts rest m,
    is_live (tips m) = true ->
    remaining (tips m) = ts ++ rest ->
    length ts = length cells ->
    exists g,
      for_each cells body m
      = (Ok tt,
         mkMachine (emitted m
                    ++ flat_map (fun ct => calls (fst ct) (snd ct)) (combine cells ts))
                   g (fresh m))
      /\ is_live g = true /\ remaining g = rest.
Proof.
  intros Hbody cells.
  induction cells as [|cell cells IH]; intros [|t ts] rest m Hl Hrem Hlen;
    try discriminate Hlen.
  - exists (tips m). simpl. rewrite machine_eta. repeat split; assumption.
  - simpl in Hrem, Hlen.
    destruct (next_yields (tips m) t (ts ++ rest) Hl Hrem) as (g1 & Hnext & Hl1 & Hrem1).
    injection Hlen as Hlen.
    destruct (IH ts rest (mkMachine (emitted m ++ calls cell t) g1 (fresh m))
                Hl1 Hrem1 Hlen) as (g & Hrun & Hlg & Hremg).
    exists g. split; [|split; assumption].
    simpl. unfold bind at 1. rewrite (Hbody cell m t g1 Hnext).
    rewrite Hrun. simpl. rewrite <- app_assoc. reflexivity.
Qed.

(** A loop that takes no tip. *)
Lemma for_each_emits (body : well -> M unit) (calls : well -> list primitive) :
  (forall cell m,
     body cell m = (Ok tt, mkMachine (emitted m ++ calls cell) (tips m) (fresh m))) ->
  forall cells m,
    for_each cells body m
    = (Ok tt, mkMachine (emitted m ++ flat_map calls cells) (tips m) (fresh m)).
Proof.
  intros Hbody cells.
  induction cells as [|cell cells IH]; intros m; simpl.
  - rewrite machine_eta. reflexivity.
  - unfold bind at 1. rewrite Hbody, IH. simpl.
    rewrite <- app_assoc. reflexivity.
Qed.

(** The body of a tip-per-location loop, once its [next(tips)] yields. *)
Ltac run_body_with_tip H :=
  unfold bind, next_tips, emit; rewrite H; simpl;
  repeat rewrite <- app_assoc; reflexivity.

Ltac run_body_no_tip :=
  unfold bind, emit; simpl; repeat rewrite <- app_assoc; reflexivity.

Lemma remove_medium_calls (waste : well) (cells : list well)
    (ts rest : list tip) (m : machine) :
  is_live (tips m) = true ->
  remaining (tips m) = ts ++ rest ->
  length ts = length cells ->
  exists g,
    remove_medium waste cells m
    = (Ok tt, mkMachine (emitted m ++ tip_per_location (medium_transfer waste) cells ts)
                        g (fresh m))
    /\ is_live g = true /\ remaining g = rest.
Proof.
  apply (for_each_with_tips _
           (fun cell t => pick_up_tips t :: medium_transfer waste cell ++ [drop_tips])).
  intros cell m0 t g H. run_body_with_tip H.
Qed.

Lemma pbs_wash_remove_calls (waste : well) (cells : list well)
    (ts rest : list tip) (m : machine) :
  is_live (tips m) = true ->
  remaining (tips m) = ts ++ rest ->
  length ts = length cells ->
  exists g,
    pbs_wash_remove waste cells m
    = (Ok tt, mkMachine (emitted m ++ tip_per_location (wash_remove_transfer waste) cells ts)
                        g (fresh m))
    /\ is_live g = true /\ remaining g = rest.
Proof.
  apply (for_each_with_tips _
           (fun cell t => pick_up_tips t :: wash_remove_transfer waste cell ++ [drop_tips])).
  intros cell m0 t g H. run_body_with_tip H.
Qed.

Lemma add_luciferase_calls (luciferase : well) (cells : list well)
    (ts rest : list tip) (m : machine) :
  is_live (tips m) = true ->
  remaining (tips m) = ts ++ rest ->
  length ts = length cells ->
  exists g,
    add_luciferase luciferase cells m
    = (Ok tt, mkMachine (emitted m ++ tip_per_location (luciferase_transfer luciferase) cells ts)
                        g (fresh m))
    /\ is_live g = true /\ remaining g = rest.
Proof.
  apply (for_each_with_tips _
           (fun cell t => pick_up_tips t :: luciferase_transfer luciferase cell ++ [drop_tips])).
  intros cell m0 t g H. run_body_with_tip H.
Qed.

Lemma pbs_wash_add_calls (pbs : well) (cells : list well)
    (t : tip) (rest : list tip) (m : machine) :
  is_live (tips m) = true ->
  remaining (tips m) = t :: rest ->
  exists g,
    pbs_wash_add pbs cells m
    = (Ok tt, mkMachine (emitted m ++ tip_shared (wash_add_transfer pbs) cells t)
                        g (fresh m))
    /\ is_live g = true /\ remaining g = rest.
Proof.
  intros Hl Hrem.
  destruct (next_yields (tips m) t rest Hl Hrem) as (g & Hnext & Hlg & Hremg).
  exists g. split; [|split; assumption].
  unfold pbs_wash_add, bind at 1, next_tips. rewrite Hnext.
  unfold bind at 1, emit at 1. unfold bind at 1.
  rewrite (for_each_emits _ (wash_add_transfer pbs)).
  - unfold emit, tip_shared. simpl.
    repeat rewrite <- app_assoc. reflexivity.
  - intros cell m0. run_body_no_tip.
Qed.

Lemma add_lysis_calls (lysis : well) (cells : list well)
    (t : tip) (rest : list tip) (m : machine) :
  is_live (tips m) = true ->
  remaining (tips m) = t :: rest ->
  exists g,
    add_lysis lysis cells m
    = (Ok tt, mkMachine (emitted m ++ tip_shared (lysis_transfer lysis) cells t
                                   ++ [delay (minutes 3)])
                        g (fresh m))
    /\ is_live g = true /\ remaining g = rest.
Proof.
  intros Hl Hrem.
  destruct (next_yields (tips m) t rest Hl Hrem) as (g & Hnext & Hlg & Hremg).
  exists g. split; [|split; assumption].
  unfold add_lysis, bind at 1, next_tips. rewrite Hnext.
  unfold bind at 1, emit at 1. unfold bind at 1.
  rewrite (for_each_emits _ (lysis_transfer lysis)).
  - unfold bind, emit, tip_shared. simpl.
    repeat rewrite <- app_assoc. reflexivity.
  - intros cell m0. run_body_no_tip.
Qed.

(** ** Resolving the wells *)

Lemma wells_nth (lw : Labware) (i : nat) :
  0 < lw_rows lw -> i < lw_cols lw ->
  nth_error (wells lw) i = Some (mkWell (lw_id lw) 0 i).
Proof.
  intros Hr Hc. unfold wells, rows.
  destruct (lw_rows lw) as [|n]; [lia|]. simpl.
  rewrite nth_error_app1 by (rewrite length_map, length_seq; exact Hc).
  rewrite nth_error_map.
  replace (nth_error (seq 0 (lw_cols lw)) i) with (Some i); [reflexivity|].
  symmetry.
  assert (Hlen : i < length (seq 0 (lw_cols lw))) by (rewrite length_seq; exact Hc).
  rewrite (nth_error_nth' _ 0 Hlen), seq_nth by exact Hc. reflexivity.
Qed.

Lemma index_nth {A} (l : list A) (i : nat) (a : A) (m : machine) :
  nth_error l i = Some a -> index l i m = (Ok a, m).
Proof. intros H. unfold index. rewrite H. reflexivity. Qed.

(** ** The whole protocol *)

Lemma bind_ok {A B} (c : M A) (k : A -> M B) (m m' : machine) (a : A) :
  c m = (Ok a, m') -> bind c k m = k a m'.
Proof. intros H. unfold bind. rewrite H. reflexivity. Qed.

Lemma bind_raise {A B} (c : M A) (k : A -> M B) (m m' : machine) e tb :
  c m = (Raise e tb, m') -> bind c k m = (Raise e tb, m').
Proof. intros H. unfold bind. rewrite H. reflexivity. Qed.

(** The statements of [run] between the deck and [lh.setup()]. *)
Lemma protocol_resolves (deck : Deck) (racks : list TipRack) (m : machine) :
  deck_ready deck racks ->
  protocol deck m
  = (emit setup ;;
     remove_medium (waste_well deck) (columns deck) ;;
     pbs_wash_add (reagent deck 0) (columns deck) ;;
     pbs_wash_remove (waste_well deck) (columns deck) ;;
     add_lysis (reagent deck 1) (columns deck) ;;
     add_luciferase (reagent deck 2) (columns deck) ;;
     emit finish)
      (mkMachine (emitted m) (_tip_gen racks) (fresh m)).
Proof.
  intros (Hracks & Hplate & Hr & Hc & Hwr & Hwc).
  unfold protocol. rewrite Hracks, tip_generator_racks.
  rewrite (bind_ok _ _ m (mkMachine (emitted m) (_tip_gen racks) (fresh m)) tt)
    by reflexivity.
  rewrite (bind_ok _ _ _ _ _ (index_nth _ 0 _ _ (wells_nth (reagent_res deck) 0 Hr ltac:(lia)))).
  rewrite (bind_ok _ _ _ _ _ (index_nth _ 1 _ _ (wells_nth (reagent_res deck) 1 Hr ltac:(lia)))).
  rewrite (bind_ok _ _ _ _ _ (index_nth _ 2 _ _ (wells_nth (reagent_res deck) 2 Hr ltac:(lia)))).
  rewrite (bind_ok _ _ _ _ _ (index_nth _ 0 _ _ (wells_nth (waste_res deck) 0 Hwr Hwc))).
  rewrite (bind_ok _ _ _ _ _
             (sample_columns_row (working_plate deck) TOTAL_COL _ Hplate ltac:(unfold TOTAL_COL; lia))).
  reflexivity.
Qed.

(** With tips for every acquisition, the protocol runs to its end and has
    issued the five steps between [setup] and [finish]. *)
Lemma protocol_completes (deck : Deck) (racks : list TipRack) (m : machine)
    (ts1 : list tip) (t2 : tip) (ts3 : list tip) (t4 : tip)
    (ts5 rest : list tip) :
  deck_ready deck racks ->
  all_tips racks = ts1 ++ t2 :: ts3 ++ t4 :: ts5 ++ rest ->
  length ts1 = length (columns deck) ->
  length ts3 = length (columns deck) ->
  length ts5 = length (columns deck) ->
  exists g,
    protocol deck m
    = (Ok tt,
       mkMachine
         (emitted m
          ++ [setup]
          ++ tip_per_location (medium_transfer (waste_well deck)) (columns deck) ts1
          ++ tip_shared (wash_add_transfer (reagent deck 0)) (columns deck) t2
          ++ tip_per_location (wash_remove_transfer (waste_well deck)) (columns deck) ts3
          ++ (tip_shared (lysis_transfer (reagent deck 1)) (columns deck) t4
              ++ [delay (minutes 3)])
          ++ tip_per_location (luciferase_transfer (reagent deck 2)) (columns deck) ts5
          ++ [finish])
         g (fresh m))
    /\ is_live g = true /\ remaining g = rest.
Proof.
  intros Hdeck Htips H1 H3 H5.
  rewrite (protocol_resolves deck racks m Hdeck).
  rewrite (bind_ok _ _ _ (mkMachine (emitted m ++ [setup]) (_tip_gen racks) (fresh m)) tt)
    by reflexivity.
  destruct (remove_medium_calls (waste_well deck) (columns deck) ts1
              (t2 :: ts3 ++ t4 :: ts5 ++ rest)
              (mkMachine (emitted m ++ [setup]) (_tip_gen racks) (fresh m))
              eq_refl Htips H1) as (g1 & R1 & L1 & T1).
  rewrite (bind_ok _ _ _ _ _ R1). cbn beta iota delta [emitted tips fresh].
  match goal with |- context [bind _ _ ?m1] =>
    destruct (pbs_wash_add_calls (reagent deck 0) (columns deck) t2
                (ts3 ++ t4 :: ts5 ++ rest) m1 L1 T1) as (g2 & R2 & L2 & T2)
  end.
  rewrite (bind_ok _ _ _ _ _ R2). cbn beta iota delta [emitted tips fresh].
  match goal with |- context [bind _ _ ?m2] =>
    destruct (pbs_wash_remove_calls (waste_well deck) (columns deck) ts3
                (t4 :: ts5 ++ rest) m2 L2 T2 H3) as (g3 & R3 & L3 & T3)
  end.
  rewrite (bind_ok _ _ _ _ _ R3). cbn beta iota delta [emitted tips fresh].
  match goal with |- context [bind _ _ ?m3] =>
    destruct (add_lysis_calls (reagent deck 1) (columns deck) t4
                (ts5 ++ rest) m3 L3 T3) as (g4 & R4 & L4 & T4)
  end.
  rewrite (bind_ok _ _ _ _ _ R4). cbn beta iota delta [emitted tips fresh].
  match goal with |- context [bind _ _ ?m4] =>
    destruct (add_luciferase_calls (reagent deck 2) (columns deck) ts5
                rest m4 L4 T4 H5) as (g5 & R5 & L5 & T5)
  end.
  rewrite (bind_ok _ _ _ _ _ R5). cbn beta iota delta [emitted tips fresh].
  exists g5. split; [|split; assumption].
  unfold emit. cbn [emitted tips fresh].
  repeat rewrite <- app_assoc. reflexivity.
Qed.

(** ** Per-step properties *)

(** C6: in the remove-medium step every target column gets, between the
    pick-up and the drop of its own tip, exactly one aspirate from that
    column of MEDIUM_VOL * 1.2, immediately followed by one dispense of the
    same volume to the waste channel; there is no mix and no air gap. *)
Theorem remove_medium_per_column (waste : well) (cells : list well)
    (ts rest : list tip) (m : machine) :
  is_live (tips m) = true ->
  remaining (tips m) = ts ++ rest ->
  length ts = length cells ->
  exists m',
    remove_medium waste cells m = (Ok tt, m')
    /\ emitted m'
       = emitted m
         ++ flat_map
              (fun ct =>
                 [pick_up_tips (snd ct);
                  aspirate (fst ct) (MEDIUM_VOL * 1.2) 0.2
                           (Some (mkCoordinate (-2.5) 0 0.2));
                  dispense waste (MEDIUM_VOL * 1.2) 3
                           (Some (mkCoordinate 0 0 (-5)));
                  drop_tips])
              (combine cells ts).
Proof.
  intros Hl Hrem Hlen.
  destruct (remove_medium_calls waste cells ts rest m Hl Hrem Hlen)
    as (g & Hrun & _).
  eexists. split; [exact Hrun|]. reflexivity.
Qed.

Lemma remove_medium_per_column_witness :
  exists m',
    remove_medium (mkWell 6 0 0) [mkWell 4 0 0; mkWell 4 0 1]
                  (mkMachine [setup] (_tip_gen four_racks) 7)
    = (Ok tt, m')
    /\ emitted m'
       = [setup;
          pick_up_tips (mkTip 0 0);
          aspirate (mkWell 4 0 0) (MEDIUM_VOL * 1.2) 0.2
                   (Some (mkCoordinate (-2.5) 0 0.2));
          dispense (mkWell 6 0 0) (MEDIUM_VOL * 1.2) 3
                   (Some (mkCoordinate 0 0 (-5)));
          drop_tips;
          pick_up_tips (mkTip 0 1);
          aspirate (mkWell 4 0 1) (MEDIUM_VOL * 1.2) 0.2
                   (Some (mkCoordinate (-2.5) 0 0.2));
          dispense (mkWell 6 0 0) (MEDIUM_VOL * 1.2) 3
                   (Some (mkCoordinate 0 0 (-5)));
          drop_tips].
Proof.
  apply (remove_medium_per_column (mkWell 6 0 0) [mkWell 4 0 0; mkWell 4 0 1]
           [mkTip 0 0; mkTip 0 1] (skipn 2 (all_tips four_racks))
           (mkMachine [setup] (_tip_gen four_racks) 7));
    reflexivity.
Defined.

(** C7: in the wash-add step every target column gets, in this order, an
    aspirate of PBS_VOL from the PBS channel, an air gap of 20, and a
    dispense to that column of PBS_VOL + 20. *)
Theorem wash_add_per_column (pbs : well) (cells : list well)
    (t : tip) (rest : list tip) (m : machine) :
  is_live (tips m) = true ->
  remaining (tips m) = t :: rest ->
  exists m',
    pbs_wash_add pbs cells m = (Ok tt, m')
    /\ emitted m'
       = emitted m
         ++ pick_up_tips t
            :: flat_map
                 (fun cell =>
                    [aspirate pbs PBS_VOL 3 None;
                     air_gap 20;
                     dispense cell (PBS_VOL + 20) 0.3
                              (Some (mkCoordinate 0 0 (-2)))])
                 cells
            ++ [drop_tips].
Proof.
  intros Hl Hrem.
  destruct (pbs_wash_add_calls pbs cells t rest m Hl Hrem) as (g & Hrun & _).
  eexists. split; [exact Hrun|]. reflexivity.
Qed.

Lemma wash_add_per_column_witness :
  exists m',
    pbs_wash_add (mkWell 5 0 0) [mkWell 4 0 0; mkWell 4 0 1]
                 (mkMachine [] (_tip_gen four_racks) 7)
    = (Ok tt, m')
    /\ emitted m'
       = [pick_up_tips (mkTip 0 0);
          aspirate (mkWell 5 0 0) PBS_VOL 3 None;
          air_gap 20;
          dispense (mkWell 4 0 0) (PBS_VOL + 20) 0.3 (Some (mkCoordinate 0 0 (-2)));
          aspirate (mkWell 5 0 0) PBS_VOL 3 None;
          air_gap 20;
          dispense (mkWell 4 0 1) (PBS_VOL + 20) 0.3 (Some (mkCoordinate 0 0 (-2)));
          drop_tips].
Proof.
  apply (wash_add_per_column (mkWell 5 0 0) [mkWell 4 0 0; mkWell 4 0 1]
           (mkTip 0 0) (skipn 1 (all_tips four_racks))
           (mkMachine [] (_tip_gen four_racks) 7));
    reflexivity.
Defined.

(** C3 (as stated, refuted): the reagent-add (luciferase) step over two
    columns picks up two tips, one inside each iteration, and drops the
    first one before the second column is reached. *)
Lemma luciferase_step_takes_a_tip_per_column :
  let m := mkMachine [] (_tip_gen four_racks) 7 in
  let out := add_luciferase (mkWell 5 0 2) [mkWell 4 0 0; mkWell 4 0 1] m in
  fst out = Ok tt
  /\ map is_tip_call (emitted (snd out))
     = [true; false; false; false; false; true;
        true; false; false; false; false; true]
  /\ filter is_pick_up (emitted (snd out))
     = [pick_up_tips (mkTip 0 0); pick_up_tips (mkTip 0 1)].
Proof. repeat split. Qed.

(** C3 (amended): the medium-removal, wash-removal and reagent-add steps
    acquire and release exactly one tip per target location; the wash-add
    and lysis-add steps use one tip shared across all their target
    locations, picked up before the location loop and dropped after it.
    The transfers themselves contain no tip call. *)
Theorem tip_policy_of_steps (pbs lysis luciferase waste : well)
    (cells : list well) :
  (forall cell,
     existsb is_tip_call
       (medium_transfer waste cell ++ wash_add_transfer pbs cell
        ++ wash_remove_transfer waste cell ++ lysis_transfer lysis cell
        ++ luciferase_transfer luciferase cell) = false)
  /\ (forall ts rest m,
        is_live (tips m) = true ->
        remaining (tips m) = ts ++ rest ->
        length ts = length cells ->
        (exists m1, remove_medium waste cells m = (Ok tt, m1)
                    /\ emitted m1 = emitted m
                         ++ tip_per_location (medium_transfer waste) cells ts)
        /\ (exists m3, pbs_wash_remove waste cells m = (Ok tt, m3)
                       /\ emitted m3 = emitted m
                            ++ tip_per_location (wash_remove_transfer waste) cells ts)
        /\ (exists m5, add_luciferase luciferase cells m = (Ok tt, m5)
                       /\ emitted m5 = emitted m
                            ++ tip_per_location (luciferase_transfer luciferase) cells ts))
  /\ (forall t rest m,
        is_live (tips m) = true ->
        remaining (tips m) = t :: rest ->
        (exists m2, pbs_wash_add pbs cells m = (Ok tt, m2)
                    /\ emitted m2 = emitted m
                         ++ tip_shared (wash_add_transfer pbs) cells t)
        /\ (exists m4, add_lysis lysis cells m = (Ok tt, m4)
                       /\ emitted m4 = emitted m
                            ++ tip_shared (lysis_transfer lysis) cells t
                            ++ [delay (minutes 3)])).
Proof.
  split; [intros cell; reflexivity|]. split.
  - intros ts rest m Hl Hrem Hlen. split; [|split].
    + destruct (remove_medium_calls waste cells ts rest m Hl Hrem Hlen)
        as (g & Hrun & _).
      eexists. split; [exact Hrun|reflexivity].
    + destruct (pbs_wash_remove_calls waste cells ts rest m Hl Hrem Hlen)
        as (g & Hrun & _).
      eexists. split; [exact Hrun|reflexivity].
    + destruct (add_luciferase_calls luciferase cells ts rest m Hl Hrem Hlen)
        as (g & Hrun & _).
      eexists. split; [exact Hrun|reflexivity].
  - intros t rest m Hl Hrem. split.
    + destruct (pbs_wash_add_calls pbs cells t rest m Hl Hrem) as (g & Hrun & _).
      eexists. split; [exact Hrun|reflexivity].
    + destruct (add_lysis_calls lysis cells t rest m Hl Hrem) as (g & Hrun & _).
      eexists. split; [exact Hrun|reflexivity].
Qed.

Lemma tip_policy_of_steps_witness :
  let cells := [mkWell 4 0 0; mkWell 4 0 1] in
  let m := mkMachine [] (_tip_gen four_racks) 7 in
  (exists m5, add_luciferase (mkWell 5 0 2) cells m = (Ok tt, m5)
              /\ emitted m5
                 = emitted m
                   ++ tip_per_location (luciferase_transfer (mkWell 5 0 2)) cells
                        [mkTip 0 0; mkTip 0 1])
  /\ (exists m4, add_lysis (mkWell 5 0 1) cells m = (Ok tt, m4)
                 /\ emitted m4
                    = emitted m
                      ++ tip_shared (lysis_transfer (mkWell 5 0 1)) cells (mkTip 0 0)
                      ++ [delay (minutes 3)]).
Proof.
  intros cells m.
  destruct (tip_policy_of_steps (mkWell 5 0 0) (mkWell 5 0 1) (mkWell 5 0 2)
              (mkWell 6 0 0) cells) as (_ & Hper & Hshared).
  split.
  - apply (Hper [mkTip 0 0; mkTip 0 1] (skipn 2 (all_tips four_racks)) m);
      reflexivity.
  - apply (Hshared (mkTip 0 0) (skipn 1 (all_tips four_racks)) m); reflexivity.
Defined.

(** ** Order of the calls, for every run *)

Lemma follows_ret {A} (a : A) : follows [] (ret a).
Proof. intros m. exists []. simpl. rewrite app_nil_r. split; reflexivity. Qed.

Lemma follows_emit (p : primitive) : follows [forget_tip p] (emit p).
Proof. intros m. exists [p]. simpl. split; reflexivity. Qed.

Lemma follows_pick_up (t : tip) :
  follows [pick_up_tips no_tip] (emit (pick_up_tips t)).
Proof. apply (follows_emit (pick_up_tips t)). Qed.

Lemma follows_next_tips : follows [] next_tips.
Proof.
  intros m. exists []. unfold next_tips.
  destruct (next (tips m)) as [[t|e tb] g]; simpl; rewrite app_nil_r;
    split; try reflexivity.
  exists []. reflexivity.
Qed.

Lemma follows_bind {A B} (p1 p2 : list primitive) (c : M A) (k : A -> M B) :
  follows p1 c -> (forall a, follows p2 (k a)) -> follows (p1 ++ p2) (bind c k).
Proof.
  intros Hc Hk m. destruct (Hc m) as (tr1 & E1 & R1).
  unfold bind. destruct (c m) as [[a|e tb] m1]; simpl in E1, R1.
  - destruct (Hk a m1) as (tr2 & E2 & R2).
    exists (tr1 ++ tr2). split.
    + rewrite E2, E1, app_assoc. reflexivity.
    + rewrite map_app, R1.
      destruct (fst (k a m1)) as [b|e tb].
      * rewrite R2. reflexivity.
      * destruct R2 as [more R2]. exists more.
        rewrite <- app_assoc, R2. reflexivity.
  - exists tr1. split; [exact E1|]. simpl.
    destruct R1 as [more R1]. exists (more ++ p2).
    rewrite app_assoc, R1. reflexivity.
Qed.

Lemma follows_for_each {A} (plan : A -> list primitive) (l : list A)
    (body : A -> M unit) :
  (forall a, follows (plan a) (body a)) ->
  follows (flat_map plan l) (for_each l body).
Proof.
  intros Hbody. induction l as [|a l IH]; simpl.
  - apply follows_ret.
  - apply follows_bind; [apply Hbody|intros _; exact IH].
Qed.

Lemma follows_eq {A} (p q : list primitive) (c : M A) :
  follows p c -> p = q -> follows q c.
Proof. intros H <-. exact H. Qed.

Ltac follows_step :=
  first
    [ apply follows_pick_up
    | apply follows_emit
    | apply follows_next_tips
    | eapply follows_bind; [|intros ?] ].

Ltac follows_calls :=
  eapply follows_eq; [repeat follows_step | reflexivity].

Lemma remove_medium_follows (waste : well) (cells : list well) :
  follows
    (flat_map (fun cell => pick_up_tips no_tip
                           :: medium_transfer waste cell ++ [drop_tips]) cells)
    (remove_medium waste cells).
Proof. apply follows_for_each. intros cell. follows_calls. Qed.

Lemma pbs_wash_remove_follows (waste : well) (cells : list well) :
  follows
    (flat_map (fun cell => pick_up_tips no_tip
                           :: wash_remove_transfer waste cell ++ [drop_tips]) cells)
    (pbs_wash_remove waste cells).
Proof. apply follows_for_each. intros cell. follows_calls. Qed.

Lemma add_luciferase_follows (luciferase : well) (cells : list well) :
  follows
    (flat_map (fun cell => pick_up_tips no_tip
                           :: luciferase_transfer luciferase cell ++ [drop_tips]) cells)
    (add_luciferase luciferase cells).
Proof. apply follows_for_each. intros cell. follows_calls. Qed.

Lemma pbs_wash_add_follows (pbs : well) (cells : list well) :
  follows
    (pick_up_tips no_tip :: flat_map (wash_add_transfer pbs) cells ++ [drop_tips])
    (pbs_wash_add pbs cells).
Proof.
  unfold pbs_wash_add.
  apply (follows_bind [] _); [apply follows_next_tips|intros t].
  apply (follows_bind [pick_up_tips no_tip] _); [apply follows_emit|intros _].
  apply follows_bind; [|intros _; apply follows_emit].
  apply follows_for_each. intros cell. follows_calls.
Qed.

Lemma add_lysis_follows (lysis : well) (cells : list well) :
  follows
    (pick_up_tips no_tip :: flat_map (lysis_transfer lysis) cells
       ++ [drop_tips; delay (minutes 3)])
    (add_lysis lysis cells).
Proof.
  unfold add_lysis.
  apply (follows_bind [] _); [apply follows_next_tips|intros t].
  apply (follows_bind [pick_up_tips no_tip] _); [apply follows_emit|intros _].
  apply follows_bind; [|intros _; follows_calls].
  apply follows_for_each. intros cell. follows_calls.
Qed.

(** ** Order of the steps *)

Lemma columns_twelve (deck : Deck) :
  12 <= lw_cols (working_plate deck) ->
  columns deck = map (mkWell (lw_id (working_plate deck)) 0) (seq 0 12).
Proof.
  intros H. unfold columns, TOTAL_COL.
  replace (Nat.min (Z.to_nat 12) (lw_cols (working_plate deck))) with 12;
    [reflexivity|].
  change (Z.to_nat 12) with 12. lia.
Qed.

Lemma steps_follow_declared_order (deck : Deck) (cells : list well) :
  follows (declared_order deck cells)
    (emit setup ;;
     remove_medium (waste_well deck) cells ;;
     pbs_wash_add (reagent deck 0) cells ;;
     pbs_wash_remove (waste_well deck) cells ;;
     add_lysis (reagent deck 1) cells ;;
     add_luciferase (reagent deck 2) cells ;;
     emit finish).
Proof.
  unfold declared_order.
  apply follows_bind; [apply (follows_emit setup)|intros _].
  apply follows_bind; [apply remove_medium_follows|intros _].
  apply follows_bind; [apply pbs_wash_add_follows|intros _].
  apply follows_bind; [apply pbs_wash_remove_follows|intros _].
  apply follows_bind; [apply add_lysis_follows|intros _].
  apply follows_bind; [apply add_luciferase_follows|intros _].
  apply (follows_emit finish).
Qed.

(** C9: on a deck with twelve sample columns, every run of the protocol
    issues its calls in the declared order: [setup], then the five steps
    one after the other (remove medium, wash-add, wash-remove, lysis-add,
    reagent-add), each visiting the columns A1 to A12 in that order, then
    [finish].  A run that returns has issued all of them, no step left
    out and none interleaved with another; a run that raises has issued an
    initial part of that sequence.  With a tip for every acquisition the
    run returns, and the tips are taken in the order of the inventory. *)
Theorem steps_in_declared_order (deck : Deck) (racks : list TipRack)
    (m : machine) :
  deck_ready deck racks ->
  12 <= lw_cols (working_plate deck) ->
  let A1_A12 := map (mkWell (lw_id (working_plate deck)) 0) (seq 0 12) in
  (exists tr,
     emitted (snd (protocol deck m)) = emitted m ++ tr
     /\ match fst (protocol deck m) with
        | Ok _ => map forget_tip tr = declared_order deck A1_A12
        | Raise _ _ =>
            exists more, map forget_tip tr ++ more = declared_order deck A1_A12
        end)
  /\ (forall (ts1 : list tip) (t2 : tip) (ts3 : list tip) (t4 : tip)
             (ts5 rest : list tip),
        all_tips racks = ts1 ++ t2 :: ts3 ++ t4 :: ts5 ++ rest ->
        length ts1 = 12 -> length ts3 = 12 -> length ts5 = 12 ->
        exists m',
          protocol deck m = (Ok tt, m')
          /\ emitted m'
             = emitted m
               ++ [setup]
               ++ tip_per_location (medium_transfer (waste_well deck)) A1_A12 ts1
               ++ tip_shared (wash_add_transfer (reagent deck 0)) A1_A12 t2
               ++ tip_per_location (wash_remove_transfer (waste_well deck)) A1_A12 ts3
               ++ (tip_shared (lysis_transfer (reagent deck 1)) A1_A12 t4
                   ++ [delay (minutes 3)])
               ++ tip_per_location (luciferase_transfer (reagent deck 2)) A1_A12 ts5
               ++ [finish]).
Proof.
  intros Hdeck Hcols A1_A12.
  pose proof (columns_twelve deck Hcols) as Hc. fold A1_A12 in Hc.
  split.
  - rewrite (protocol_resolves deck racks m Hdeck), Hc.
    apply (steps_follow_declared_order deck A1_A12
             (mkMachine (emitted m) (_tip_gen racks) (fresh m))).
  - intros ts1 t2 ts3 t4 ts5 rest Htips H1 H3 H5.
    assert (Hlen : length (columns deck) = 12)
      by (rewrite Hc; unfold A1_A12; rewrite length_map, length_seq; reflexivity).
    destruct (protocol_completes deck racks m ts1 t2 ts3 t4 ts5 rest Hdeck Htips)
      as (g & Hrun & _); try congruence.
    eexists. split; [exact Hrun|].
    cbn [emitted]. rewrite Hc. reflexivity.
Qed.

Lemma steps_in_declared_order_witness :
  exists m',
    protocol reference_deck initial = (Ok tt, m')
    /\ length (emitted m') = 259
    /\ length (filter is_pick_up (emitted m')) = 38
    /\ hd_error (emitted m') = Some setup
    /\ last (emitted m') setup = finish.
Proof.
  destruct (steps_in_declared_order reference_deck four_racks initial)
    as (_ & Hfull).
  - unfold deck_ready; simpl; repeat split; lia.
  - simpl; lia.
  - destruct (Hfull (map (mkTip 0) (seq 0 12)) (mkTip 0 12)
                (map (mkTip 0) (seq 13 12)) (mkTip 0 25)
                (map (mkTip 0) (seq 26 12))
                (skipn 38 (all_tips four_racks)))
      as (m' & Hrun & Htrace); try reflexivity.
    exists m'. split; [exact Hrun|]. rewrite Htrace. repeat split.
Defined.

(** ** Running out of tips *)

Lemma columns_two (deck : Deck) :
  2 <= lw_cols (working_plate deck) ->
  exists cs,
    columns deck
    = mkWell (lw_id (working_plate deck)) 0 0
      :: mkWell (lw_id (working_plate deck)) 0 1 :: cs.
Proof.
  intros H. unfold columns, TOTAL_COL. change (Z.to_nat 12) with 12.
  destruct (Nat.min 12 (lw_cols (working_plate deck))) as [|[|n]] eqn:E;
    try lia.
  simpl. eexists. reflexivity.
Qed.

(** C8: with exactly one tip in the inventory (and at least two sample
    columns), the run raises the tip-exhaustion error at its second tip
    acquisition, in the remove-medium step at the second column: the first
    column has been processed in full (pick-up, aspirate, dispense, drop)
    and nothing is issued for the second one. *)
Theorem one_tip_exhausts_at_second_column (deck : Deck)
    (racks : list TipRack) (t : tip) (m : machine) :
  deck_ready deck racks ->
  2 <= lw_cols (working_plate deck) ->
  all_tips racks = [t] ->
  exists m',
    protocol deck m = (Raise (RuntimeError "Out of tips!") ["_tip_gen"], m')
    /\ emitted m'
       = emitted m
         ++ [setup;
             pick_up_tips t;
             aspirate (mkWell (lw_id (working_plate deck)) 0 0)
                      (MEDIUM_VOL * 1.2) 0.2 (Some (mkCoordinate (-2.5) 0 0.2));
             dispense (waste_well deck) (MEDIUM_VOL * 1.2) 3
                      (Some (mkCoordinate 0 0 (-5)));
             drop_tips]
    /\ tips m' = Finished.
Proof.
  intros Hdeck Hcols Htips.
  rewrite (protocol_resolves deck racks m Hdeck).
  destruct (columns_two deck Hcols) as [cs ->].
  rewrite (bind_ok _ _ _ (mkMachine (emitted m ++ [setup]) (_tip_gen racks) (fresh m)) tt)
    by reflexivity.
  destruct (next_yields (_tip_gen racks) t [] eq_refl Htips)
    as (g1 & Hnext1 & Hl1 & Hrem1).
  pose proof (next_exhausted g1 Hl1 Hrem1) as Hnext2.
  eexists. split; [|split].
  - apply bind_raise. unfold remove_medium. cbn [for_each].
    unfold bind at 1. unfold bind at 1, next_tips at 1.
    cbn [tips emitted fresh]. rewrite Hnext1.
    unfold bind at 1, emit at 1. unfold bind at 1, emit at 1.
    unfold bind at 1, emit at 1. unfold emit at 1.
    cbn [tips emitted fresh].
    apply bind_raise. apply bind_raise.
    unfold next_tips. cbn [tips emitted fresh]. rewrite Hnext2. reflexivity.
  - cbn [emitted]. repeat rewrite <- app_assoc. reflexivity.
  - reflexivity.
Qed.

Lemma one_tip_exhausts_at_second_column_witness :
  exists m',
    protocol one_tip_deck initial
    = (Raise (RuntimeError "Out of tips!") ["_tip_gen"], m')
    /\ length (emitted m') = 5
    /\ filter is_pick_up (emitted m') = [pick_up_tips (mkTip 0 0)].
Proof.
  destruct (one_tip_exhausts_at_second_column one_tip_deck [mkTipRack 0 1]
              (mkTip 0 0) initial)
    as (m' & Hrun & Htrace & _).
  - unfold deck_ready; simpl; repeat split; lia.
  - simpl; lia.
  - reflexivity.
  - exists m'. split; [exact Hrun|]. rewrite Htrace. repeat split.
Defined.

(** ** The entry point *)

Section Issues.
Variable P : primitive -> Prop.

Lemma issues_ret {A} (a : A) : issues P (ret a).
Proof. intros m. exists []. simpl. rewrite app_nil_r. split; constructor. Qed.

Lemma issues_raise {A} (e : exception) : issues P (@raise A e).
Proof. intros m. exists []. simpl. rewrite app_nil_r. split; constructor. Qed.

Lemma issues_emit (p : primitive) : P p -> issues P (emit p).
Proof.
  intros Hp m. exists [p]. simpl. split; [reflexivity|].
  constructor; [exact Hp|constructor].
Qed.

Lemma issues_set_tips (g : generator) : issues P (set_tips g).
Proof. intros m. exists []. simpl. rewrite app_nil_r. split; constructor. Qed.

Lemma issues_next_tips : issues P next_tips.
Proof.
  intros m. exists []. unfold next_tips.
  destruct (next (tips m)) as [r g]. simpl.
  rewrite app_nil_r. split; constructor.
Qed.

Lemma issues_index {A} (l : list A) (i : nat) : issues P (index l i).
Proof.
  unfold index. destruct (nth_error l i); [apply issues_ret|apply issues_raise].
Qed.

Lemma issues_bind {A B} (c : M A) (k : A -> M B) :
  issues P c -> (forall a, issues P (k a)) -> issues P (bind c k).
Proof.
  intros Hc Hk m. destruct (Hc m) as (tr1 & E1 & F1).
  unfold bind. destruct (c m) as [[a|e tb] m1]; simpl in E1.
  - destruct (Hk a m1) as (tr2 & E2 & F2).
    exists (tr1 ++ tr2). rewrite E2, E1, app_assoc. split; [reflexivity|].
    apply Forall_app. split; assumption.
  - exists tr1. split; assumption.
Qed.

Lemma issues_for_each {A} (l : list A) (body : A -> M unit) :
  (forall a, issues P (body a)) -> issues P (for_each l body).
Proof.
  intros Hbody. induction l as [|a l IH]; simpl.
  - apply issues_ret.
  - apply issues_bind; [apply Hbody|intros _; exact IH].
Qed.

Lemma issues_sample_columns (plate : Labware) (k : Z) :
  issues P (sample_columns plate k).
Proof.
  apply issues_bind; [apply issues_index|intros row0; apply issues_ret].
Qed.
End Issues.

Lemma finish_last_emit : finish_last (emit finish).
Proof. intros m. exists []. split; [constructor|reflexivity]. Qed.

Lemma finish_last_bind {A B} (c : M A) (k : A -> M B) :
  issues (fun p => p <> finish) c ->
  (forall a, finish_last (k a)) ->
  finish_last (bind c k).
Proof.
  intros Hc Hk m. destruct (Hc m) as (tr1 & E1 & F1).
  unfold bind. destruct (c m) as [[a|e tb] m1]; simpl in E1.
  - destruct (Hk a m1) as (tr2 & F2 & E2).
    exists (tr1 ++ tr2). split; [apply Forall_app; split; assumption|].
    destruct (k a m1) as [[b|e tb] m2]; rewrite E2, E1;
      repeat rewrite <- app_assoc; reflexivity.
  - exists tr1. split; assumption.
Qed.

Ltac issues_step :=
  first
    [ apply issues_emit; discriminate
    | apply issues_next_tips
    | apply issues_set_tips
    | apply issues_index
    | apply issues_sample_columns
    | apply issues_ret
    | apply issues_for_each; intros ?
    | apply issues_bind; [|intros ?] ].

Ltac issues_all := repeat issues_step.

Lemma steps_issue_no_finish (pbs lysis luciferase waste : well)
    (cells : list well) :
  issues (fun p => p <> finish) (remove_medium waste cells)
  /\ issues (fun p => p <> finish) (pbs_wash_add pbs cells)
  /\ issues (fun p => p <> finish) (pbs_wash_remove waste cells)
  /\ issues (fun p => p <> finish) (add_lysis lysis cells)
  /\ issues (fun p => p <> finish) (add_luciferase luciferase cells).
Proof.
  repeat split.
  - unfold remove_medium. issues_all.
  - unfold pbs_wash_add. issues_all.
  - unfold pbs_wash_remove. issues_all.
  - unfold add_lysis. issues_all.
  - unfold add_luciferase. issues_all.
Qed.

Lemma protocol_finish_last (deck : Deck) : finish_last (protocol deck).
Proof.
  unfold protocol.
  apply finish_last_bind; [issues_all|intros _].
  apply finish_last_bind; [issues_all|intros pbs].
  apply finish_last_bind; [issues_all|intros lysis].
  apply finish_last_bind; [issues_all|intros luciferase].
  apply finish_last_bind; [issues_all|intros waste].
  apply finish_last_bind; [issues_all|intros cells].
  destruct (steps_issue_no_finish pbs lysis luciferase waste cells)
    as (S1 & S2 & S3 & S4 & S5).
  apply finish_last_bind; [issues_all|intros _].
  apply finish_last_bind; [exact S1|intros _].
  apply finish_last_bind; [exact S2|intros _].
  apply finish_last_bind; [exact S3|intros _].
  apply finish_last_bind; [exact S4|intros _].
  apply finish_last_bind; [exact S5|intros _].
  apply finish_last_emit.
Qed.

(** C5 (as stated, refuted): a call of [run] of [ot2plr.py] that omits the
    argument binds [simulation] to [False], the mode that drives the
    hardware. *)
Lemma run_defaults_to_hardware_mode :
  bind_simulation None = false.
Proof. reflexivity. Qed.

Lemma index_resolves_or_stops {A} (l : list A) (i : nat) (m : machine) :
  (exists a, index l i m = (Ok a, m))
  \/ index l i m = (Raise IndexError [], m).
Proof.
  unfold index. destruct (nth_error l i) as [a|]; [left; exists a|right];
    reflexivity.
Qed.

Lemma sample_columns_resolves_or_stops (plate : Labware) (k : Z) (m : machine) :
  (exists cells, sample_columns plate k m = (Ok cells, m))
  \/ sample_columns plate k m = (Raise IndexError [], m).
Proof.
  unfold sample_columns.
  destruct (index_resolves_or_stops (rows plate) 0 m) as [[row0 H]|H].
  - left. eexists. rewrite (bind_ok _ _ _ _ _ H). reflexivity.
  - right. apply bind_raise, H.
Qed.

Lemma index_none {A} (l : list A) (i : nat) (m : machine) :
  nth_error l i = None -> index l i m = (Raise IndexError [], m).
Proof. intros H. unfold index. rewrite H. reflexivity. Qed.

Lemma sample_columns_some (plate : Labware) (k : Z) (row0 : list well)
    (m : machine) :
  nth_error (rows plate) 0 = Some row0 ->
  sample_columns plate k m = (Ok (slice_upto row0 k), m).
Proof.
  intros H. unfold sample_columns.
  rewrite (bind_ok _ _ _ _ _ (index_nth _ 0 _ m H)). reflexivity.
Qed.

Lemma sample_columns_none (plate : Labware) (k : Z) (m : machine) :
  nth_error (rows plate) 0 = None ->
  sample_columns plate k m = (Raise IndexError [], m).
Proof.
  intros H. unfold sample_columns. apply bind_raise, index_none, H.
Qed.

Lemma steps_follow_plan (pbs lysis luciferase waste : well)
    (cells : list well) :
  follows (protocol_plan pbs lysis luciferase waste cells)
    (emit setup ;;
     remove_medium waste cells ;;
     pbs_wash_add pbs cells ;;
     pbs_wash_remove waste cells ;;
     add_lysis lysis cells ;;
     add_luciferase luciferase cells ;;
     emit finish).
Proof.
  unfold protocol_plan.
  apply follows_bind; [apply (follows_emit setup)|intros _].
  apply follows_bind; [apply remove_medium_follows|intros _].
  apply follows_bind; [apply pbs_wash_add_follows|intros _].
  apply follows_bind; [apply pbs_wash_remove_follows|intros _].
  apply follows_bind; [apply add_lysis_follows|intros _].
  apply follows_bind; [apply add_luciferase_follows|intros _].
  apply (follows_emit finish).
Qed.

Ltac stops_resolving H :=
  rewrite (bind_raise _ _ _ _ _ _ H); exists []; simpl; rewrite app_nil_r;
  split; [reflexivity|exact I].

(** A run that returns has resolved its wells and issued the calls of the
    plan over them. *)
Lemma protocol_follows_plan (deck : Deck) (m : machine) :
  exists tr,
    emitted (snd (protocol deck m)) = emitted m ++ tr
    /\ match fst (protocol deck m) with
       | Ok _ =>
           exists pbs lysis luciferase waste row0,
             nth_error (wells (reagent_res deck)) 0 = Some pbs
             /\ nth_error (wells (reagent_res deck)) 1 = Some lysis
             /\ nth_error (wells (reagent_res deck)) 2 = Some luciferase
             /\ nth_error (wells (waste_res deck)) 0 = Some waste
             /\ nth_error (rows (working_plate deck)) 0 = Some row0
             /\ map forget_tip tr
                = protocol_plan pbs lysis luciferase waste
                    (slice_upto row0 TOTAL_COL)
       | Raise _ _ => True
       end.
Proof.
  unfold protocol.
  rewrite (bind_ok _ _ m
             (mkMachine (emitted m) (tip_generator (tip_racks deck)) (fresh m)) tt)
    by reflexivity.
  set (m0 := mkMachine (emitted m) (tip_generator (tip_racks deck)) (fresh m)).
  change (emitted m) with (emitted m0).
  destruct (nth_error (wells (reagent_res deck)) 0) as [pbs|] eqn:E0;
    [|stops_resolving (index_none _ 0 m0 E0)].
  rewrite (bind_ok _ _ _ _ _ (index_nth _ 0 _ m0 E0)).
  destruct (nth_error (wells (reagent_res deck)) 1) as [lysis|] eqn:E1;
    [|stops_resolving (index_none _ 1 m0 E1)].
  rewrite (bind_ok _ _ _ _ _ (index_nth _ 1 _ m0 E1)).
  destruct (nth_error (wells (reagent_res deck)) 2) as [luciferase|] eqn:E2;
    [|stops_resolving (index_none _ 2 m0 E2)].
  rewrite (bind_ok _ _ _ _ _ (index_nth _ 2 _ m0 E2)).
  destruct (nth_error (wells (waste_res deck)) 0) as [waste|] eqn:E3;
    [|stops_resolving (index_none _ 0 m0 E3)].
  rewrite (bind_ok _ _ _ _ _ (index_nth _ 0 _ m0 E3)).
  destruct (nth_error (rows (working_plate deck)) 0) as [row0|] eqn:E4;
    [|stops_resolving (sample_columns_none _ TOTAL_COL m0 E4)].
  rewrite (bind_ok _ _ _ _ _ (sample_columns_some _ TOTAL_COL _ m0 E4)).
  destruct (steps_follow_plan pbs lysis luciferase waste
              (slice_upto row0 TOTAL_COL) m0) as (tr & Htr & Hplan).
  exists tr. split; [exact Htr|].
  match goal with |- match fst ?r with _ => _ end =>
    destruct (fst r) as [u|e tb]
  end; [|exact I].
  exists pbs, lysis, luciferase, waste, row0. repeat split. exact Hplan.
Qed.

Lemma filter_finish_none (tr : list primitive) :
  Forall (fun p => p <> finish) tr -> filter is_finish tr = [].
Proof.
  induction 1 as [|p tr Hp _ IH]; simpl; [reflexivity|].
  destruct p; simpl; try exact IH. contradiction Hp. reflexivity.
Qed.

(** C5 (amended): [run] of [ot2plr.py] defaults to [simulation=False];
    the simulation-safe mode is what its [__main__] block asks for
    explicitly, and what the [async] variant defaults to.  Given a deck
    whose tip-rack list holds tip racks or [None], a run of the protocol
    that returns has resolved its wells, executed the five steps over the
    sample columns in the declared order between [setup] and [finish],
    and called [finish] exactly once, as its last call; when a statement
    raises, the exception leaves the protocol at once: what was issued
    before stays issued and [finish] is not called. *)
Theorem run_entry_point (L : Library) (deck : Deck) (m : machine) :
  bind_simulation None = false
  /\ main = run (Some true)
  /\ bind_simulation (Some true) = true
  /\ HighLevel.bind_simulation None = true
  /\ (forallb rack_or_none (tip_racks deck) = true ->
      exists tr,
        emitted (snd (protocol deck m)) = emitted m ++ tr
        /\ match fst (protocol deck m) with
           | Ok _ =>
               (exists pbs lysis luciferase waste row0,
                  nth_error (wells (reagent_res deck)) 0 = Some pbs
                  /\ nth_error (wells (reagent_res deck)) 1 = Some lysis
                  /\ nth_error (wells (reagent_res deck)) 2 = Some luciferase
                  /\ nth_error (wells (waste_res deck)) 0 = Some waste
                  /\ nth_error (rows (working_plate deck)) 0 = Some row0
                  /\ map forget_tip tr
                     = protocol_plan pbs lysis luciferase waste
                         (slice_upto row0 TOTAL_COL))
               /\ filter is_finish tr = [finish]
               /\ (exists tr', tr = tr' ++ [finish])
           | Raise _ _ => Forall (fun p => p <> finish) tr
           end).
Proof.
  split; [reflexivity|]. split; [reflexivity|]. split; [reflexivity|].
  split; [reflexivity|]. intros _.
  destruct (protocol_follows_plan deck m) as (tr & Htr & Hplan).
  destruct (protocol_finish_last deck m) as (tr0 & Hfree & Hlast).
  exists tr. split; [exact Htr|].
  destruct (protocol deck m) as [[u|e tb] m'] eqn:Hrun; simpl in Htr, Hplan |- *.
  - rewrite Htr in Hlast. apply app_inv_head in Hlast. subst tr.
    split; [exact Hplan|]. split.
    + rewrite filter_app, (filter_finish_none tr0 Hfree). reflexivity.
    + exists tr0. reflexivity.
  - rewrite Htr in Hlast. apply app_inv_head in Hlast. subst tr. exact Hfree.
Qed.

Lemma run_entry_point_witness :
  exists tr,
    emitted (snd (protocol reference_deck initial)) = emitted initial ++ tr
    /\ filter is_finish tr = [finish]
    /\ (exists tr', tr = tr' ++ [finish]).
Proof.
  destruct (run_entry_point echo_library reference_deck initial)
    as (_ & _ & _ & _ & H).
  destruct (H eq_refl) as (tr & Htr & Hok).
  change (fst (protocol reference_deck initial)) with (@Ok unit tt) in Hok.
  exists tr. split; [exact Htr|]. exact (proj2 Hok).
Defined.
(** * Further properties *)

(** ** The generator, for any number of calls *)

Lemma next_n_finished (k : nat) :
  next_n k Finished = (repeat (Raise StopIteration []) k, Finished).
Proof.
  induction k as [|k IH]; simpl; [reflexivity|]. rewrite IH. reflexivity.
Qed.

Lemma next_n_results (k : nat) (g : generator) (T : list tip) :
  is_live g = true -> remaining g = T ->
  fst (next_n k g)
  = map Ok (firstn k T)
    ++ match k - length T with
       | 0 => []
       | S j => Raise (RuntimeError "Out of tips!") ["_tip_gen"]
                :: repeat (Raise StopIteration []) j
       end
  /\ remaining (snd (next_n k g)) = skipn k T.
Proof.
  revert g T. induction k as [|k IH]; intros g T Hl Hrem.
  - simpl. split; [reflexivity|exact Hrem].
  - destruct T as [|t T].
    + simpl next_n. rewrite (next_exhausted g Hl Hrem), next_n_finished.
      simpl. split; reflexivity.
    + destruct (next_yields g t T Hl Hrem) as (g1 & Hnext & Hl1 & Hrem1).
      destruct (IH g1 T Hl1 Hrem1) as [Hres Hstate].
      simpl next_n. rewrite Hnext.
      destruct (next_n k g1) as [rs g2]. simpl in Hres, Hstate |- *.
      rewrite Hres. split; [reflexivity|exact Hstate].
Qed.

(** X1: for any inventory and any number k of [next] calls, the first
    min(k, N) calls return the tips of the inventory in order, the call
    after the last tip raises [RuntimeError("Out of tips!")], and every
    call after that one raises [StopIteration]: the generator is finished
    and does not start over.  After k calls the tips not yet returned are
    the inventory without its first k tips. *)
Theorem tip_gen_any_number_of_calls (racks : list TipRack) (k : nat) :
  fst (next_n k (_tip_gen racks))
  = map Ok (firstn k (all_tips racks))
    ++ match k - length (all_tips racks) with
       | 0 => []
       | S j => Raise (RuntimeError "Out of tips!") ["_tip_gen"]
                :: repeat (Raise StopIteration []) j
       end
  /\ remaining (snd (next_n k (_tip_gen racks))) = skipn k (all_tips racks).
Proof.
  apply next_n_results; reflexivity.
Qed.

(** ** Wells that cannot be resolved *)

Lemma rows_length (p : Labware) : length (rows p) = lw_rows p.
Proof. unfold rows. rewrite length_map, length_seq. reflexivity. Qed.

Lemma concat_rows_length (i cols a n : nat) :
  length (concat (map (fun r => map (mkWell i r) (seq 0 cols)) (seq a n)))
  = n * cols.
Proof.
  revert a. induction n as [|n IH]; intros a; simpl; [reflexivity|].
  rewrite length_app, length_map, length_seq, IH. reflexivity.
Qed.

Lemma wells_length (p : Labware) : length (wells p) = lw_rows p * lw_cols p.
Proof. unfold wells, rows. apply concat_rows_length. Qed.

(** X2: when the reagent reservoir has fewer than three channels, the
    waste reservoir has none, or the working plate has no row, the
    protocol of [run] raises [IndexError] while it resolves its wells,
    whatever the tip-rack list holds: nothing has been issued on the
    liquid handler, not even [setup], and no tip has been taken. *)
Theorem unresolved_well_stops_before_setup (deck : Deck) (m : machine) :
  lw_rows (reagent_res deck) * lw_cols (reagent_res deck) < 3
  \/ lw_rows (waste_res deck) * lw_cols (waste_res deck) = 0
  \/ lw_rows (working_plate deck) = 0 ->
  protocol deck m
  = (Raise IndexError [],
     mkMachine (emitted m) (tip_generator (tip_racks deck)) (fresh m)).
Proof.
  intros Hbad.
  rewrite <- !wells_length, <- rows_length in Hbad.
  unfold protocol.
  rewrite (bind_ok _ _ m
             (mkMachine (emitted m) (tip_generator (tip_racks deck)) (fresh m)) tt)
    by reflexivity.
  unfold sample_columns, index, bind, raise, ret.
  destruct (nth_error (wells (reagent_res deck)) 0) as [pbs|] eqn:E0;
    [|reflexivity].
  destruct (nth_error (wells (reagent_res deck)) 1) as [lysis|] eqn:E1;
    [|reflexivity].
  destruct (nth_error (wells (reagent_res deck)) 2) as [luciferase|] eqn:E2;
    [|reflexivity].
  destruct (nth_error (wells (waste_res deck)) 0) as [waste|] eqn:E3;
    [|reflexivity].
  destruct (nth_error (rows (working_plate deck)) 0) as [row0|] eqn:E4;
    [|reflexivity].
  exfalso.
  assert (H2 : 2 < length (wells (reagent_res deck)))
    by (apply nth_error_Some; congruence).
  assert (H3 : 0 < length (wells (waste_res deck)))
    by (apply nth_error_Some; congruence).
  assert (H4 : 0 < length (rows (working_plate deck)))
    by (apply nth_error_Some; congruence).
  lia.
Qed.

Lemma unresolved_well_stops_before_setup_witness :
  protocol (mkDeck [VNone; VNone; VNone; VNone] (mkLabware 4 8 12)
                   (mkLabware 5 1 2) (mkLabware 6 1 1))
           initial
  = (Raise IndexError [],
     mkMachine [] (Blocked [] []) 0).
Proof.
  apply (unresolved_well_stops_before_setup
           (mkDeck [VNone; VNone; VNone; VNone] (mkLabware 4 8 12)
                   (mkLabware 5 1 2) (mkLabware 6 1 1))
           initial).
  left. simpl. lia.
Defined.

(** ** How many tips a run takes *)

(** A loop that takes a tip at every iteration, with too few tips left. *)
Lemma for_each_with_tips_short (body : well -> M unit)
    (calls : well -> tip -> list primitive) :
  (forall cell m t g, next (tips m) = (Ok t, g) ->
     body cell m = (Ok tt, mkMachine (emitted m ++ calls cell t) g (fresh m))) ->
  (forall cell m e tb g, next (tips m) = (Raise e tb, g) ->
     body cell m = (Raise e tb, mkMachine (emitted m) g (fresh m))) ->
  forall cells ts m,
    is_live (tips m) = true ->
    remaining (tips m) = ts ->
    length ts < length cells ->
    for_each cells body m
    = (Raise (RuntimeError "Out of tips!") ["_tip_gen"],
       mkMachine (emitted m
                  ++ flat_map (fun ct => calls (fst ct) (snd ct)) (combine cells ts))
                 Finished (fresh m)).
Proof.
  intros Hok Hraise cells.
  induction cells as [|cell cells IH]; intros ts m Hl Hrem Hlen;
    [simpl in Hlen; lia|].
  destruct ts as [|t ts].
  - simpl. apply bind_raise.
    rewrite (Hraise cell m _ _ _ (next_exhausted (tips m) Hl Hrem)).
    rewrite app_nil_r. reflexivity.
  - destruct (next_yields (tips m) t ts Hl Hrem) as (g1 & Hnext & Hl1 & Hrem1).
    simpl in Hlen.
    simpl for_each. rewrite (bind_ok _ _ _ _ _ (Hok cell m t g1 Hnext)).
    rewrite (IH ts (mkMachine (emitted m ++ calls cell t) g1 (fresh m))
               Hl1 Hrem1 ltac:(lia)).
    simpl. rewrite <- app_assoc. reflexivity.
Qed.

Ltac run_body_raising H :=
  unfold bind, next_tips; rewrite H; reflexivity.

Lemma remove_medium_short (waste : well) (cells : list well)
    (ts : list tip) (m : machine) :
  is_live (tips m) = true -> remaining (tips m) = ts ->
  length ts < length cells ->
  exists m', remove_medium waste cells m
             = (Raise (RuntimeError "Out of tips!") ["_tip_gen"], m').
Proof.
  intros Hl Hrem Hlen. eexists.
  apply (for_each_with_tips_short _
           (fun cell t => pick_up_tips t :: medium_transfer waste cell ++ [drop_tips]));
    try eassumption.
  - intros cell m0 t g H. run_body_with_tip H.
  - intros cell m0 e tb g H. run_body_raising H.
Qed.

Lemma pbs_wash_remove_short (waste : well) (cells : list well)
    (ts : list tip) (m : machine) :
  is_live (tips m) = true -> remaining (tips m) = ts ->
  length ts < length cells ->
  exists m', pbs_wash_remove waste cells m
             = (Raise (RuntimeError "Out of tips!") ["_tip_gen"], m').
Proof.
  intros Hl Hrem Hlen. eexists.
  apply (for_each_with_tips_short _
           (fun cell t => pick_up_tips t :: wash_remove_transfer waste cell ++ [drop_tips]));
    try eassumption.
  - intros cell m0 t g H. run_body_with_tip H.
  - intros cell m0 e tb g H. run_body_raising H.
Qed.

Lemma add_luciferase_short (luciferase : well) (cells : list well)
    (ts : list tip) (m : machine) :
  is_live (tips m) = true -> remaining (tips m) = ts ->
  length ts < length cells ->
  exists m', add_luciferase luciferase cells m
             = (Raise (RuntimeError "Out of tips!") ["_tip_gen"], m').
Proof.
  intros Hl Hrem Hlen. eexists.
  apply (for_each_with_tips_short _
           (fun cell t => pick_up_tips t :: luciferase_transfer luciferase cell ++ [drop_tips]));
    try eassumption.
  - intros cell m0 t g H. run_body_with_tip H.
  - intros cell m0 e tb g H. run_body_raising H.
Qed.

Lemma pbs_wash_add_short (pbs : well) (cells : list well) (m : machine) :
  is_live (tips m) = true -> remaining (tips m) = [] ->
  exists m', pbs_wash_add pbs cells m
             = (Raise (RuntimeError "Out of tips!") ["_tip_gen"], m').
Proof.
  intros Hl Hrem. eexists. unfold pbs_wash_add. apply bind_raise.
  unfold next_tips. rewrite (next_exhausted (tips m) Hl Hrem). reflexivity.
Qed.

Lemma add_lysis_short (lysis : well) (cells : list well) (m : machine) :
  is_live (tips m) = true -> remaining (tips m) = [] ->
  exists m', add_lysis lysis cells m
             = (Raise (RuntimeError "Out of tips!") ["_tip_gen"], m').
Proof.
  intros Hl Hrem. eexists. unfold add_lysis. apply bind_raise.
  unfold next_tips. rewrite (next_exhausted (tips m) Hl Hrem). reflexivity.
Qed.

Lemma take_tips (n : nat) (l : list tip) :
  n <= length l ->
  exists ts rest, l = ts ++ rest /\ length ts = n.
Proof.
  intros H. exists (firstn n l), (skipn n l). split.
  - symmetry. apply firstn_skipn.
  - apply firstn_length_le, H.
Qed.

Lemma take_tip (l : list tip) :
  0 < length l -> exists t rest, l = t :: rest.
Proof. destruct l as [|t rest]; simpl; [lia|]. intros _. eauto. Qed.

Lemma protocol_runs_out (deck : Deck) (racks : list TipRack) (m : machine) :
  deck_ready deck racks ->
  length (all_tips racks) < 3 * length (columns deck) + 2 ->
  exists m',
    protocol deck m = (Raise (RuntimeError "Out of tips!") ["_tip_gen"], m').
Proof.
  intros Hdeck Hfew.
  rewrite (protocol_resolves deck racks m Hdeck).
  rewrite (bind_ok _ _ _ (mkMachine (emitted m ++ [setup]) (_tip_gen racks) (fresh m)) tt)
    by reflexivity.
  set (n := length (columns deck)) in *.
  (* step 1 *)
  destruct (Nat.lt_ge_cases (length (all_tips racks)) n) as [Hlt|Hge].
  { destruct (remove_medium_short (waste_well deck) (columns deck) (all_tips racks)
                (mkMachine (emitted m ++ [setup]) (_tip_gen racks) (fresh m))
                eq_refl eq_refl Hlt) as [m' H].
    exists m'. apply bind_raise, H. }
  destruct (take_tips n (all_tips racks) Hge) as (ts1 & R1 & HT & H1).
  assert (HlenT : length (all_tips racks) = n + length R1)
    by (rewrite HT, length_app; lia).
  destruct (remove_medium_calls (waste_well deck) (columns deck) ts1 R1
              (mkMachine (emitted m ++ [setup]) (_tip_gen racks) (fresh m))
              eq_refl HT H1) as (g1 & Run1 & L1 & T1).
  rewrite (bind_ok _ _ _ _ _ Run1).
  (* step 2 *)
  destruct R1 as [|t2 R2].
  { match goal with |- context [bind _ _ ?m1] =>
      destruct (pbs_wash_add_short (reagent deck 0) (columns deck) m1 L1 T1)
        as [m' H]
    end.
    exists m'. apply bind_raise, H. }
  match goal with |- context [bind _ _ ?m1] =>
    destruct (pbs_wash_add_calls (reagent deck 0) (columns deck) t2 R2 m1 L1 T1)
      as (g2 & Run2 & L2 & T2)
  end.
  rewrite (bind_ok _ _ _ _ _ Run2). simpl length in HlenT.
  (* step 3 *)
  destruct (Nat.lt_ge_cases (length R2) n) as [Hlt3|Hge3].
  { match goal with |- context [bind _ _ ?m2] =>
      destruct (pbs_wash_remove_short (waste_well deck) (columns deck) R2 m2
                  L2 T2 Hlt3) as [m' H]
    end.
    exists m'. apply bind_raise, H. }
  destruct (take_tips n R2 Hge3) as (ts3 & R3 & HR2 & H3).
  assert (HlenR2 : length R2 = n + length R3)
    by (rewrite HR2, length_app; lia).
  match goal with |- context [bind _ _ ?m2] =>
    destruct (pbs_wash_remove_calls (waste_well deck) (columns deck) ts3 R3 m2
                L2 (eq_trans T2 HR2) H3) as (g3 & Run3 & L3 & T3)
  end.
  rewrite (bind_ok _ _ _ _ _ Run3).
  (* step 4 *)
  destruct R3 as [|t4 R4].
  { match goal with |- context [bind _ _ ?m3] =>
      destruct (add_lysis_short (reagent deck 1) (columns deck) m3 L3 T3)
        as [m' H]
    end.
    exists m'. apply bind_raise, H. }
  match goal with |- context [bind _ _ ?m3] =>
    destruct (add_lysis_calls (reagent deck 1) (columns deck) t4 R4 m3 L3 T3)
      as (g4 & Run4 & L4 & T4)
  end.
  rewrite (bind_ok _ _ _ _ _ Run4). simpl length in HlenR2.
  (* step 5 *)
  assert (Hlt5 : length R4 < n) by lia.
  match goal with |- context [bind _ _ ?m4] =>
    destruct (add_luciferase_short (reagent deck 2) (columns deck) R4 m4
                L4 T4 Hlt5) as [m' H]
  end.
  exists m'. apply bind_raise, H.
Qed.

Lemma split_tips (n : nat) (T : list tip) :
  3 * n + 2 <= length T ->
  exists ts1 t2 ts3 t4 ts5 rest,
    T = ts1 ++ t2 :: ts3 ++ t4 :: ts5 ++ rest
    /\ length ts1 = n /\ length ts3 = n /\ length ts5 = n.
Proof.
  intros Henough.
  destruct (take_tips n T ltac:(lia)) as (ts1 & R1 & HT & H1). subst T.
  rewrite length_app in Henough.
  destruct (take_tip R1 ltac:(lia)) as (t2 & R2 & HR1). subst R1.
  simpl in Henough.
  destruct (take_tips n R2 ltac:(lia)) as (ts3 & R3 & HR2 & H3). subst R2.
  rewrite length_app in Henough.
  destruct (take_tip R3 ltac:(lia)) as (t4 & R4 & HR3). subst R3.
  simpl in Henough.
  destruct (take_tips n R4 ltac:(lia)) as (ts5 & rest & HR4 & H5). subst R4.
  exists ts1, t2, ts3, t4, ts5, rest. repeat split; assumption.
Qed.

Lemma columns_length (deck : Deck) :
  length (columns deck) = Nat.min 12 (lw_cols (working_plate deck)).
Proof.
  unfold columns. rewrite length_map, length_seq. reflexivity.
Qed.

(** X3: on a deck whose wells resolve, a run over n sample columns
    (n = min(12, columns of the plate)) takes 3 n + 2 tips: the protocol
    returns exactly when the inventory enumerates at least that many (38
    for twelve columns), and with fewer it raises
    [RuntimeError("Out of tips!")]. *)
Theorem protocol_needs_tips (deck : Deck) (racks : list TipRack) (m : machine) :
  deck_ready deck racks ->
  let n := Nat.min 12 (lw_cols (working_plate deck)) in
  (fst (protocol deck m) = Ok tt <-> 3 * n + 2 <= length (all_tips racks))
  /\ (length (all_tips racks) < 3 * n + 2 ->
      fst (protocol deck m) = Raise (RuntimeError "Out of tips!") ["_tip_gen"]).
Proof.
  intros Hdeck n. unfold n. rewrite <- (columns_length deck).
  assert (Hout : length (all_tips racks) < 3 * length (columns deck) + 2 ->
                 fst (protocol deck m)
                 = Raise (RuntimeError "Out of tips!") ["_tip_gen"]).
  { intros Hfew. destruct (protocol_runs_out deck racks m Hdeck Hfew) as [m' ->].
    reflexivity. }
  split; [split|exact Hout].
  - intros Hok.
    destruct (Nat.lt_ge_cases (length (all_tips racks))
                (3 * length (columns deck) + 2)) as [Hfew|Hge]; [|exact Hge].
    rewrite (Hout Hfew) in Hok. discriminate Hok.
  - intros Henough.
    destruct (split_tips (length (columns deck)) (all_tips racks) Henough)
      as (ts1 & t2 & ts3 & t4 & ts5 & rest & HT & H1 & H3 & H5).
    destruct (protocol_completes deck racks m ts1 t2 ts3 t4 ts5 rest
                Hdeck HT H1 H3 H5) as (g & -> & _).
    reflexivity.
Qed.

Lemma protocol_needs_tips_witness :
  fst (protocol reference_deck initial) = Ok tt
  /\ fst (protocol one_tip_deck initial)
     = Raise (RuntimeError "Out of tips!") ["_tip_gen"].
Proof.
  split.
  - apply (protocol_needs_tips reference_deck four_racks initial).
    + unfold deck_ready; simpl; repeat split; lia.
    + simpl. lia.
  - apply (protocol_needs_tips one_tip_deck [mkTipRack 0 1] initial).
    + unfold deck_ready; simpl; repeat split; lia.
    + simpl. lia.
Defined.

(** ** Which tips a run takes *)

Lemma filter_pick_flat_map (transfer : well -> list primitive)
    (cells : list well) :
  (forall cell, filter is_pick_up (transfer cell) = []) ->
  filter is_pick_up (flat_map transfer cells) = [].
Proof.
  intros Hfree. induction cells as [|cell cells IH]; simpl; [reflexivity|].
  rewrite filter_app, Hfree, IH. reflexivity.
Qed.

Lemma filter_pick_per_location (transfer : well -> list primitive)
    (cells : list well) (ts : list tip) :
  (forall cell, filter is_pick_up (transfer cell) = []) ->
  length ts = length cells ->
  filter is_pick_up (tip_per_location transfer cells ts) = map pick_up_tips ts.
Proof.
  intros Hfree. revert ts.
  induction cells as [|cell cells IH]; intros [|t ts] Hlen;
    try discriminate Hlen; [reflexivity|].
  injection Hlen as Hlen. unfold tip_per_location in *. simpl.
  rewrite !filter_app, Hfree, IH by exact Hlen. reflexivity.
Qed.

Lemma filter_pick_shared (transfer : well -> list primitive)
    (cells : list well) (t : tip) :
  (forall cell, filter is_pick_up (transfer cell) = []) ->
  filter is_pick_up (tip_shared transfer cells t) = [pick_up_tips t].
Proof.
  intros Hfree. unfold tip_shared. simpl.
  rewrite filter_app, (filter_pick_flat_map transfer cells Hfree). reflexivity.
Qed.

Lemma firstn_skipn_exact {A} (a b : list A) (k : nat) :
  length a = k -> firstn k (a ++ b) = a /\ skipn k (a ++ b) = b.
Proof.
  intros <-. induction a as [|x a [IH1 IH2]]; simpl.
  - split; reflexivity.
  - rewrite IH1. split; [reflexivity|exact IH2].
Qed.

(** X4: a run that has a tip for every acquisition picks up exactly the
    first 3 n + 2 tips of the inventory, in inventory order and each at
    one pick-up, and leaves the generator with the rest of the inventory;
    when no rack object is listed twice, no tip is picked up twice. *)
Theorem protocol_takes_tips_in_order (deck : Deck) (racks : list TipRack)
    (m : machine) :
  deck_ready deck racks ->
  let n := Nat.min 12 (lw_cols (working_plate deck)) in
  3 * n + 2 <= length (all_tips racks) ->
  exists m',
    protocol deck m = (Ok tt, m')
    /\ filter is_pick_up (emitted m')
       = filter is_pick_up (emitted m)
         ++ map pick_up_tips (firstn (3 * n + 2) (all_tips racks))
    /\ remaining (tips m') = skipn (3 * n + 2) (all_tips racks)
    /\ (NoDup (map rack_id racks) ->
        NoDup (firstn (3 * n + 2) (all_tips racks))).
Proof.
  intros Hdeck n. unfold n. rewrite <- (columns_length deck). intros Henough.
  destruct (split_tips (length (columns deck)) (all_tips racks) Henough)
    as (ts1 & t2 & ts3 & t4 & ts5 & rest & HT & H1 & H3 & H5).
  destruct (protocol_completes deck racks m ts1 t2 ts3 t4 ts5 rest
              Hdeck HT H1 H3 H5) as (g & Hrun & _ & Hrest).
  assert (Hcut : all_tips racks
                 = (ts1 ++ t2 :: ts3 ++ t4 :: ts5) ++ rest).
  { rewrite HT. repeat (rewrite <- app_assoc; simpl). reflexivity. }
  assert (Hlen : length (ts1 ++ t2 :: ts3 ++ t4 :: ts5)
                 = 3 * length (columns deck) + 2).
  { repeat (rewrite length_app; simpl). lia. }
  destruct (firstn_skipn_exact (ts1 ++ t2 :: ts3 ++ t4 :: ts5) rest _ Hlen)
    as [Hfirst Hskip].
  rewrite <- Hcut in Hfirst, Hskip.
  eexists. split; [exact Hrun|]. cbn [emitted tips]. split; [|split].
  - rewrite Hfirst, !filter_app.
    rewrite !filter_pick_per_location by (assumption || intros; reflexivity).
    rewrite !filter_pick_shared by (intros; reflexivity).
    simpl. rewrite !map_app. simpl. rewrite map_app. simpl.
    repeat (rewrite <- app_assoc; simpl). rewrite app_nil_r. reflexivity.
  - rewrite Hskip. exact Hrest.
  - intros Hids. rewrite Hfirst.
    pose proof (all_tips_NoDup racks Hids) as Hnd. rewrite Hcut in Hnd.
    apply NoDup_app_remove_r in Hnd. exact Hnd.
Qed.

Lemma protocol_takes_tips_in_order_witness :
  exists m',
    protocol reference_deck initial = (Ok tt, m')
    /\ filter is_pick_up (emitted m')
       = map pick_up_tips (map (mkTip 0) (seq 0 38))
    /\ remaining (tips m') = skipn 38 (all_tips four_racks).
Proof.
  destruct (protocol_takes_tips_in_order reference_deck four_racks initial)
    as (m' & Hrun & Hpicks & Hrest & _).
  - unfold deck_ready; simpl; repeat split; lia.
  - simpl. lia.
  - exists m'. split; [exact Hrun|]. split; [exact Hpicks|exact Hrest].
Defined.

(** ** A plate without sample columns *)

(** X5: when the first row of the working plate is empty, the run still
    takes two tips: the wash-add and lysis-add steps pick up and drop
    their shared tip around an empty loop, and the three-minute delay is
    issued; the steps with one tip per column issue nothing. *)
Theorem no_column_run_takes_two_tips (deck : Deck) (racks : list TipRack)
    (t2 t4 : tip) (rest : list tip) (m : machine) :
  deck_ready deck racks ->
  lw_cols (working_plate deck) = 0 ->
  all_tips racks = t2 :: t4 :: rest ->
  exists m',
    protocol deck m = (Ok tt, m')
    /\ emitted m'
       = emitted m
         ++ [setup;
             pick_up_tips t2; drop_tips;
             pick_up_tips t4; drop_tips; delay (minutes 3);
             finish]
    /\ remaining (tips m') = rest.
Proof.
  intros Hdeck Hcols Htips.
  assert (Hnone : columns deck = []).
  { unfold columns. rewrite Hcols, Nat.min_0_r. reflexivity. }
  destruct (protocol_completes deck racks m [] t2 [] t4 [] rest Hdeck Htips)
    as (g & Hrun & _ & Hrest); try (rewrite Hnone; reflexivity).
  eexists. split; [exact Hrun|]. cbn [emitted tips].
  rewrite Hnone. split; [reflexivity|exact Hrest].
Qed.

Lemma no_column_run_takes_two_tips_witness :
  exists m',
    protocol (mkDeck (map VRack four_racks) (mkLabware 4 8 0)
                     (mkLabware 5 1 12) (mkLabware 6 1 1))
             initial
    = (Ok tt, m')
    /\ emitted m'
       = emitted initial
         ++ [setup;
             pick_up_tips (mkTip 0 0); drop_tips;
             pick_up_tips (mkTip 0 1); drop_tips; delay (minutes 3);
             finish]
    /\ remaining (tips m') = skipn 2 (all_tips four_racks).
Proof.
  apply (no_column_run_takes_two_tips
           (mkDeck (map VRack four_racks) (mkLabware 4 8 0)
                   (mkLabware 5 1 12) (mkLabware 6 1 1))
           four_racks (mkTip 0 0) (mkTip 0 1) (skipn 2 (all_tips four_racks))
           initial).
  - unfold deck_ready; simpl; repeat split; lia.
  - reflexivity.
  - reflexivity.
Defined.

(** ** Tips and liquid movements *)

Lemma tip_discipline_app (h : bool) (a b : list primitive) :
  tip_discipline h (a ++ b)
  = match tip_discipline h a with
    | Some h1 => tip_discipline h1 b
    | None => None
    end.
Proof.
  revert h. induction a as [|p a IH]; intros h; simpl; [reflexivity|].
  destruct (tip_step h p); [apply IH|reflexivity].
Qed.

Lemma keeps_tips_ret {A} (h : bool) (a : A) : keeps_tips h h (ret a).
Proof. intros m. exists []. simpl. rewrite app_nil_r. split; reflexivity. Qed.

Lemma keeps_tips_raise {A} (h' : bool) (e : exception) :
  keeps_tips false h' (@raise A e).
Proof. intros m. exists []. simpl. rewrite app_nil_r. split; reflexivity. Qed.

Lemma keeps_tips_emit (h h' : bool) (p : primitive) :
  tip_step h p = Some h' -> keeps_tips h h' (emit p).
Proof.
  intros Hp m. exists [p]. simpl. rewrite Hp. split; reflexivity.
Qed.

Lemma keeps_tips_set_tips (h : bool) (g : generator) :
  keeps_tips h h (set_tips g).
Proof. intros m. exists []. simpl. rewrite app_nil_r. split; reflexivity. Qed.

(** [next(tips)] may raise: it has to be called without a tip held. *)
Lemma keeps_tips_next_tips : keeps_tips false false next_tips.
Proof.
  intros m. exists []. unfold next_tips.
  destruct (next (tips m)) as [[t|e tb] g]; simpl; rewrite app_nil_r;
    split; reflexivity.
Qed.

Lemma keeps_tips_index {A} (l : list A) (i : nat) :
  keeps_tips false false (index l i).
Proof.
  unfold index. destruct (nth_error l i);
    [apply keeps_tips_ret|apply keeps_tips_raise].
Qed.

Lemma keeps_tips_bind {A B} (h h1 h2 : bool) (c : M A) (k : A -> M B) :
  keeps_tips h h1 c -> (forall a, keeps_tips h1 h2 (k a)) ->
  keeps_tips h h2 (bind c k).
Proof.
  intros Hc Hk m. destruct (Hc m) as (tr1 & E1 & D1).
  unfold bind. destruct (c m) as [[a|e tb] m1]; simpl in E1, D1.
  - destruct (Hk a m1) as (tr2 & E2 & D2).
    exists (tr1 ++ tr2). split.
    + rewrite E2, E1, app_assoc. reflexivity.
    + rewrite tip_discipline_app, D1. exact D2.
  - exists tr1. split; [exact E1|exact D1].
Qed.

Lemma keeps_tips_for_each {A} (h : bool) (l : list A) (body : A -> M unit) :
  (forall a, keeps_tips h h (body a)) -> keeps_tips h h (for_each l body).
Proof.
  intros Hbody. induction l as [|a l IH]; simpl.
  - apply keeps_tips_ret.
  - apply (keeps_tips_bind h h h); [apply Hbody|intros _; exact IH].
Qed.

Lemma keeps_tips_sample_columns (plate : Labware) (k : Z) :
  keeps_tips false false (sample_columns plate k).
Proof.
  apply (keeps_tips_bind false false false);
    [apply keeps_tips_index|intros row0; apply keeps_tips_ret].
Qed.

Ltac keeps_tips_step :=
  first
    [ apply keeps_tips_next_tips
    | eapply keeps_tips_emit; reflexivity
    | apply keeps_tips_for_each; intros ?
    | eapply keeps_tips_bind; [|intros ?] ].

Ltac keeps_tips_all := repeat keeps_tips_step.

Lemma steps_keep_tips (pbs lysis luciferase waste : well) (cells : list well) :
  keeps_tips false false (remove_medium waste cells)
  /\ keeps_tips false false (pbs_wash_add pbs cells)
  /\ keeps_tips false false (pbs_wash_remove waste cells)
  /\ keeps_tips false false (add_lysis lysis cells)
  /\ keeps_tips false false (add_luciferase luciferase cells).
Proof.
  repeat split.
  - unfold remove_medium. keeps_tips_all.
  - unfold pbs_wash_add. keeps_tips_all.
  - unfold pbs_wash_remove. keeps_tips_all.
  - unfold add_lysis. keeps_tips_all.
  - unfold add_luciferase. keeps_tips_all.
Qed.

Lemma protocol_keeps_tips (deck : Deck) : keeps_tips false false (protocol deck).
Proof.
  unfold protocol.
  apply (keeps_tips_bind false false false);
    [apply keeps_tips_set_tips|intros _].
  apply (keeps_tips_bind false false false);
    [apply keeps_tips_index|intros pbs].
  apply (keeps_tips_bind false false false);
    [apply keeps_tips_index|intros lysis].
  apply (keeps_tips_bind false false false);
    [apply keeps_tips_index|intros luciferase].
  apply (keeps_tips_bind false false false);
    [apply keeps_tips_index|intros waste].
  apply (keeps_tips_bind false false false);
    [apply keeps_tips_sample_columns|intros cells].
  destruct (steps_keep_tips pbs lysis luciferase waste cells)
    as (S1 & S2 & S3 & S4 & S5).
  apply (keeps_tips_bind false false false);
    [apply keeps_tips_emit; reflexivity|intros _].
  apply (keeps_tips_bind false false false); [exact S1|intros _].
  apply (keeps_tips_bind false false false); [exact S2|intros _].
  apply (keeps_tips_bind false false false); [exact S3|intros _].
  apply (keeps_tips_bind false false false); [exact S4|intros _].
  apply (keeps_tips_bind false false false); [exact S5|intros _].
  apply keeps_tips_emit. reflexivity.
Qed.

(** X6: as long as the calls on the liquid handler return normally, in
    every run of the protocol on a deck whose tip-rack list holds tip
    racks or [None], with any tip inventory, whether the run returns or is
    stopped by an exception of its own statements (an unresolved well, the
    end of the tips, an entry that is no tip rack): a tip is picked up
    only when none is held, a tip is dropped only when one is held, every
    aspirate, air gap, dispense and mix is issued with a tip held, and no
    tip is held when the run ends: [next(tips)] is only ever called with
    the pipette free. *)
Theorem protocol_tip_discipline (deck : Deck) (m : machine) :
  forallb rack_or_none (tip_racks deck) = true ->
  exists tr,
    emitted (snd (protocol deck m)) = emitted m ++ tr
    /\ tip_discipline false tr = Some false.
Proof.
  intros _.
  destruct (protocol_keeps_tips deck m) as (tr & Htr & Hd).
  exists tr. split; [exact Htr|].
  rewrite Hd. destruct (fst (protocol deck m)); reflexivity.
Qed.

Lemma protocol_tip_discipline_witness :
  fst (protocol (mkDeck [VRack (mkTipRack 0 13); VNone] (mkLabware 4 8 12)
                        (mkLabware 5 1 12) (mkLabware 6 1 1))
                initial)
  = Raise TypeError ["_tip_gen"]
  /\ exists tr,
       emitted (snd (protocol (mkDeck [VRack (mkTipRack 0 13); VNone]
                                      (mkLabware 4 8 12) (mkLabware 5 1 12)
                                      (mkLabware 6 1 1))
                              initial))
       = emitted initial ++ tr
       /\ tip_discipline false tr = Some false.
Proof.
  split; [reflexivity|].
  apply (protocol_tip_discipline
           (mkDeck [VRack (mkTipRack 0 13); VNone] (mkLabware 4 8 12)
                   (mkLabware 5 1 12) (mkLabware 6 1 1))
           initial).
  reflexivity.
Defined.
(** ** The high-level variant *)

Lemma high_level_run_body_unfolds (L : Library) (simulation : bool) :
  HighLevel.run_body simulation
  = in_frame "run"
      (load_global HighLevel.module_globals "MyBackend" ;;
       deck <- _build_deck (VObj "DPLiquidHandler") ;;
       high_level_protocol deck).
Proof. reflexivity. Qed.

(** X7: given the deck, the statements of the high-level [run] resolve
    the three reagent channels and the first plate row (no waste well),
    and raise [IndexError] with nothing issued when one of them is
    missing.  Otherwise they issue [setup] once and then call, in this
    order, [remove_liquid], [add_liquid], [remove_liquid], [add_liquid],
    [add_liquid], and nothing else (no [finish]).  The two removals take
    the sample columns as [sources], with volumes MEDIUM_VOL and
    PBS_VOL * 1.5; the PBS and luciferase additions take the sample
    columns as [targets]; the lysis addition passes the sample columns as
    [sources] and no [targets]; every call is handed the same list
    [deck["tip_racks"]]. *)
Theorem high_level_run_steps (L : Library) (deck : Deck) (m : machine) :
  (lw_rows (reagent_res deck) * lw_cols (reagent_res deck) < 3
   \/ lw_rows (working_plate deck) = 0 ->
   high_level_protocol deck m = (Raise IndexError [], m))
  /\ (forall pbs lysis luciferase row0,
        nth_error (wells (reagent_res deck)) 0 = Some pbs ->
        nth_error (wells (reagent_res deck)) 1 = Some lysis ->
        nth_error (wells (reagent_res deck)) 2 = Some luciferase ->
        nth_error (rows (working_plate deck)) 0 = Some row0 ->
        let cells := HighLevel.cells (slice_upto row0 TOTAL_COL) in
        exists k1 k2 k3 k4 k5,
          high_level_protocol deck m
          = (remove_liquid k1 ;; add_liquid k2 ;; remove_liquid k3 ;;
             add_liquid k4 ;; add_liquid k5)
              (mkMachine (emitted m ++ [setup]) (tips m) (fresh m))
          /\ (lookup k1 "sources" = Some cells
              /\ lookup k1 "vols" = Some (HighLevel.nums MEDIUM_VOL 12))
          /\ (lookup k2 "reagent_sources" = Some (VList [VWell pbs])
              /\ lookup k2 "targets" = Some cells
              /\ lookup k2 "vols" = Some (HighLevel.nums PBS_VOL 12))
          /\ (lookup k3 "sources" = Some cells
              /\ lookup k3 "vols" = Some (HighLevel.nums (PBS_VOL * 1.5) 12))
          /\ (lookup k4 "reagent_sources" = Some (VList [VWell lysis])
              /\ lookup k4 "targets" = None
              /\ lookup k4 "sources" = Some cells
              /\ lookup k4 "vols" = Some (HighLevel.nums LYSIS_VOL 12))
          /\ (lookup k5 "reagent_sources" = Some (VList [VWell luciferase])
              /\ lookup k5 "targets" = Some cells
              /\ lookup k5 "vols" = Some (HighLevel.nums LUC_VOL 12))
          /\ Forall (fun k => lookup k "tip_racks" = Some (VList (tip_racks deck)))
                    [k1; k2; k3; k4; k5]).
Proof.
  split.
  - intros Hbad. rewrite <- wells_length, <- rows_length in Hbad.
    unfold high_level_protocol, sample_columns, index, bind, raise, ret.
    destruct (nth_error (wells (reagent_res deck)) 0) as [pbs|] eqn:E0;
      [|reflexivity].
    destruct (nth_error (wells (reagent_res deck)) 1) as [lysis|] eqn:E1;
      [|reflexivity].
    destruct (nth_error (wells (reagent_res deck)) 2) as [luciferase|] eqn:E2;
      [|reflexivity].
    destruct (nth_error (rows (working_plate deck)) 0) as [row0|] eqn:E4;
      [|reflexivity].
    exfalso.
    assert (H2 : 2 < length (wells (reagent_res deck)))
      by (apply nth_error_Some; congruence).
    assert (H4 : 0 < length (rows (working_plate deck)))
      by (apply nth_error_Some; congruence).
    lia.
  - intros pbs lysis luciferase row0 E0 E1 E2 E4 cells.
    unfold high_level_protocol.
    rewrite (bind_ok _ _ _ _ _ (index_nth _ 0 _ m E0)).
    rewrite (bind_ok _ _ _ _ _ (index_nth _ 1 _ m E1)).
    rewrite (bind_ok _ _ _ _ _ (index_nth _ 2 _ m E2)).
    rewrite (bind_ok _ _ _ _ _ (sample_columns_some _ TOTAL_COL _ m E4)).
    rewrite (bind_ok _ _ m (mkMachine (emitted m ++ [setup]) (tips m) (fresh m)) tt)
      by reflexivity.
    do 5 eexists. split; [reflexivity|].
    repeat split; repeat constructor.
Qed.

Lemma high_level_run_steps_witness :
  @high_level_protocol echo_library
     (mkDeck (map VRack four_racks) (mkLabware 4 8 12) (mkLabware 5 1 2)
             (mkLabware 6 1 1))
     initial
  = (Raise IndexError [], initial)
  /\ snd (@high_level_protocol tracing_library reference_deck initial)
     = mkMachine [setup;
                  aspirate (mkWell 4 0 0) 0 0 None;
                  dispense (mkWell 5 0 0) 0 0 None;
                  aspirate (mkWell 4 0 0) 0 0 None;
                  dispense (mkWell 5 0 1) 0 0 None;
                  dispense (mkWell 5 0 2) 0 0 None]
                 Finished 0.
Proof.
  split.
  - apply (high_level_run_steps echo_library
             (mkDeck (map VRack four_racks) (mkLabware 4 8 12) (mkLabware 5 1 2)
                     (mkLabware 6 1 1))
             initial).
    left. simpl. lia.
  - destruct (high_level_run_steps tracing_library reference_deck initial)
      as [_ H].
    destruct (H (mkWell 5 0 0) (mkWell 5 0 1) (mkWell 5 0 2)
                (map (mkWell 4 0) (seq 0 12)) eq_refl eq_refl eq_refl eq_refl)
      as (k1 & k2 & k3 & k4 & k5 & Hrun
          & [Hs1 _] & [Hr2 _] & [Hs3 _] & [Hr4 _] & [Hr5 _] & _).
    rewrite Hrun. unfold bind. simpl remove_liquid. simpl add_liquid.
    unfold emit, first_well. cbn [emitted tips fresh fst snd].
    rewrite Hs1, Hr2, Hs3, Hr4, Hr5. reflexivity.
Defined.
